(** * Metric computation engine of the rental dashboard

    A shallow embedding of the two helpers at the bottom of
    [src/server/api/routers/analytics.ts]:

    - [calculatePercentageChange] (percentage variance of two metric values),
    - [calculateMonthMetrics] (nights, revenue, occupancy, ADR and RevPAR of a
      list of reservations over one period),

    together with the three [date-fns] functions they call ([isAfter],
    [isBefore], [differenceInDays]).

    Modelling choices, all taken from the source:

    - A JS [Date] is its time value, an integer count of milliseconds ([Z]).
      The [date-fns] functions are read on a clock without daylight-saving
      shifts (the server's UTC), where the local calendar day of a time value
      [t] is [t / 86400000].
    - A JS [number] is an IEEE 754 binary64 value.  The engine is written
      once over an interface [JsNumber] and instantiated twice: [binary64]
      (the kernel's primitive floats: what the program computes) and [exact]
      (canonical rationals: the same program read in exact arithmetic, used
      for the laws the specification states "up to floating-point rounding").
    - Day counts are integers far below 2^53, where binary64 arithmetic on
      integers is exact; they are kept in [Z] and enter the number type through
      [ofZ] where the source divides or multiplies them with a price.
    - The price fields are typed [any] in the source and read through a
      truthiness test and [Number(...)].  The model gives them three shapes
      ([Price]): [null], a Prisma [Decimal] object (what the queries of the
      callers return for a nullable decimal column; an object is truthy
      whatever its value) and a primitive number (falsy when 0 or NaN). *)

From Stdlib Require Import ZArith List Lia Bool Permutation.
From Stdlib Require Import QArith Qcanon.
From Stdlib Require Import Floats.PrimFloat Floats.SpecFloat Floats.FloatOps.
From Stdlib Require String Sorted.
Import String.StringSyntax.
Import ListNotations.

Local Open Scope Z_scope.

(** ** Dates: the part of [date-fns] the engine uses *)

Module DateFns.

(** The time value of a [Date], in milliseconds since the epoch. *)
Definition Date : Type := Z.

Definition MS_PER_DAY : Z := 86400000.

(** [isAfter(date, dateToCompare)]: [date > dateToCompare]. *)
Definition isAfter (date dateToCompare : Date) : bool := dateToCompare <? date.

(** [isBefore(date, dateToCompare)]: [date < dateToCompare]. *)
Definition isBefore (date dateToCompare : Date) : bool := date <? dateToCompare.

(** [compareLocalAsc]: the sign of the field-wise comparison of two dates. *)
Definition compareLocalAsc (dateLeft dateRight : Date) : Z :=
  match dateLeft ?= dateRight with
  | Lt => -1
  | Eq => 0
  | Gt => 1
  end.

(** [differenceInCalendarDays]: the difference of the two calendar days. *)
Definition differenceInCalendarDays (dateLeft dateRight : Date) : Z :=
  dateLeft / MS_PER_DAY - dateRight / MS_PER_DAY.

(** [differenceInDays(dateLeft, dateRight)]: the number of full days between
    the two dates, as [date-fns] computes it: the calendar-day difference,
    less one when the last day is not full, with the sign of the comparison. *)
Definition differenceInDays (dateLeft dateRight : Date) : Z :=
  let sign := compareLocalAsc dateLeft dateRight in
  let difference := Z.abs (differenceInCalendarDays dateLeft dateRight) in
  let shifted := dateLeft - sign * difference * MS_PER_DAY in
  let isLastDayNotFull :=
    if compareLocalAsc shifted dateRight =? - sign then 1 else 0 in
  sign * (difference - isLastDayNotFull).

(** Days from 0000-03-01 to March 1st of year [y] (proleptic Gregorian). *)
Definition daysBeforeMarch1 (y : Z) : Z :=
  365 * y + y / 4 - y / 100 + y / 400.

(** Day number of a civil date (1970-01-01 is day 0); months are 1..12. *)
Definition daysFromCivil (y m d : Z) : Z :=
  daysBeforeMarch1 (if m <=? 2 then y - 1 else y)
  + (153 * ((m + 9) mod 12) + 2) / 5 + (d - 1) - 719468.

(** [new Date(y, m - 1, d)]: midnight at the start of a civil date. *)
Definition midnight (y m d : Z) : Date := daysFromCivil y m d * MS_PER_DAY.

(** [startOfMonth] and [endOfMonth] of month [m] of year [y], as the callers
    of the engine build their periods: the first instant of the month and its
    last millisecond. *)
Definition startOfMonth (y m : Z) : Date := midnight y m 1.

Definition endOfMonth (y m : Z) : Date :=
  (if m =? 12 then midnight (y + 1) 1 1 else midnight y (m + 1) 1) - 1.

(** The Gregorian leap-year rule and the length of month [m] of year [y]. *)
Definition isLeapYear (y : Z) : bool :=
  (y mod 4 =? 0) && (negb (y mod 100 =? 0) || (y mod 400 =? 0)).

Definition daysInMonth (y m : Z) : Z :=
  if m =? 2 then (if isLeapYear y then 29 else 28)
  else if (m =? 4) || (m =? 6) || (m =? 9) || (m =? 11) then 30
  else 31.

(** A time value that is the midnight starting a calendar day. *)
Definition isMidnight (t : Date) : Prop := t mod MS_PER_DAY = 0.

End DateFns.

Import DateFns.

(** ** JS numbers *)

(** The operations of a JS [number] that the engine uses. *)
Class JsNumber (num : Type) : Type := {
  ofZ : Z -> num;              (* an integer as a number *)
  nadd : num -> num -> num;    (* x + y *)
  nsub : num -> num -> num;    (* x - y *)
  nmul : num -> num -> num;    (* x * y *)
  ndiv : num -> num -> num;    (* x / y *)
  isZero : num -> bool;        (* x === 0 *)
  isNaN : num -> bool          (* Number.isNaN(x) *)
}.

Declare Scope num_scope.
Delimit Scope num_scope with num.
Infix "+" := nadd : num_scope.
Infix "-" := nsub : num_scope.
Infix "*" := nmul : num_scope.
Infix "/" := ndiv : num_scope.

(** An integer as the nearest binary64 value (exact below 2^53). *)
Definition Z2float (z : Z) : float :=
  SF2Prim (binary_normalize prec emax z 0 false).

(** IEEE 754 binary64: the numbers the program computes with. *)
#[export] Instance binary64 : JsNumber float := {|
  ofZ := Z2float;
  nadd := PrimFloat.add;
  nsub := PrimFloat.sub;
  nmul := PrimFloat.mul;
  ndiv := PrimFloat.div;
  isZero := fun x => PrimFloat.eqb x PrimFloat.zero;
  isNaN := PrimFloat.is_nan
|}.

(** Exact rational arithmetic: the program without rounding. *)
#[export] Instance exact : JsNumber Qc := {|
  ofZ := fun z => Q2Qc (inject_Z z);
  nadd := Qcplus;
  nsub := Qcminus;
  nmul := Qcmult;
  ndiv := Qcdiv;
  isZero := fun x => Qc_eq_bool x (Q2Qc 0);
  isNaN := fun _ => false
|}.

(** ** The engine *)

Section Engine.

Context {num : Type} {N : JsNumber num}.

(** The value of a price field ([totalPrice], [nightlySubtotal]: typed [any]):
    [null], a primitive number, or a [Decimal] object of the Prisma client,
    carried here by the number that [Number(...)] converts it to. *)
Inductive Price : Type :=
| PriceNull
| PriceNumber (x : num)
| PriceDecimal (x : num).

(** JS truthiness of a price field: [null] is falsy, a number is falsy when
    it is [0], [-0] or [NaN], and an object is truthy whatever it holds. *)
Definition truthy (v : Price) : bool :=
  match v with
  | PriceNull => false
  | PriceNumber x => negb (isZero x) && negb (isNaN x)
  | PriceDecimal _ => true
  end.

(** [Number(v)] of a price field. *)
Definition Number (v : Price) : num :=
  match v with
  | PriceNull => ofZ 0
  | PriceNumber x => x
  | PriceDecimal x => x
  end.

(** [calculatePercentageChange(current, previous)]. *)
Definition calculatePercentageChange (current previous : option num)
  : option num :=
  match current, previous with
  | Some c, Some p =>
      if isZero p then None else Some (((c - p) / p) * ofZ 100)%num
  | _, _ => None
  end.

(** An element of the [reservations] array. *)
Record Reservation : Type := {
  startDate : Date;
  endDate : Date;
  totalPrice : Price;
  nightlySubtotal : Price
}.

(** The object [calculateMonthMetrics] returns. *)
Record MonthMetrics : Type := {
  adr : option num;
  occupancy : option num;
  revpar : option num;
  totalNights : Z;
  totalRevenue : num;
  totalAvailableNights : Z
}.

(** The clamped overlap of a reservation with the period. *)
Definition overlapStart (monthStart : Date) (reservation : Reservation) : Date :=
  if isAfter (startDate reservation) monthStart
  then startDate reservation else monthStart.

Definition overlapEnd (monthEnd : Date) (reservation : Reservation) : Date :=
  if isBefore (endDate reservation) monthEnd
  then endDate reservation else monthEnd.

(** One iteration of the [for ... of reservations] loop, on the two
    accumulators [(totalNights, totalRevenue)].  In the room-revenue branch
    the source declares a block-local [totalNights] that shadows the
    accumulator; it is [stayNights] here. *)
Definition accumulate (monthStart monthEnd : Date) (acc : Z * num)
  (reservation : Reservation) : Z * num :=
  let resStart := startDate reservation in
  let resEnd := endDate reservation in
  let overlapStart := overlapStart monthStart reservation in
  let overlapEnd := overlapEnd monthEnd reservation in
  if isAfter overlapEnd overlapStart then
    let nightsInMonth := differenceInDays overlapEnd overlapStart in
    let totalNights := fst acc + nightsInMonth in
    if truthy (nightlySubtotal reservation) then
      let stayNights := differenceInDays resEnd resStart in
      let nightlyRate :=
        if 0 <? stayNights
        then (Number (nightlySubtotal reservation) / ofZ stayNights)%num
        else ofZ 0 in
      (totalNights, (snd acc + nightlyRate * ofZ nightsInMonth)%num)
    else if truthy (totalPrice reservation) then
      let totalReservationNights := differenceInDays resEnd resStart in
      let monthRevenue :=
        if 0 <? totalReservationNights
        then ((Number (totalPrice reservation) / ofZ totalReservationNights)
              * ofZ nightsInMonth)%num
        else ofZ 0 in
      (totalNights, (snd acc + monthRevenue)%num)
    else (totalNights, snd acc)
  else acc.

(** [calculateMonthMetrics(reservations, monthStart, monthEnd, propertyCount)]. *)
Definition calculateMonthMetrics (reservations : list Reservation)
  (monthStart monthEnd : Date) (propertyCount : Z) : MonthMetrics :=
  let totals :=
    fold_left (accumulate monthStart monthEnd) reservations (0, ofZ 0) in
  let totalNights := fst totals in
  let totalRevenue := snd totals in
  let daysInMonth := differenceInDays monthEnd monthStart + 1 in
  let totalAvailableNights := propertyCount * daysInMonth in
  let occupancy :=
    if 0 <? totalAvailableNights
    then Some ((ofZ totalNights / ofZ totalAvailableNights) * ofZ 100)%num
    else None in
  let adr :=
    if 0 <? totalNights
    then Some (totalRevenue / ofZ totalNights)%num
    else None in
  let revpar :=
    if 0 <? totalAvailableNights
    then Some (totalRevenue / ofZ totalAvailableNights)%num
    else None in
  {| adr := adr;
     occupancy := occupancy;
     revpar := revpar;
     totalNights := totalNights;
     totalRevenue := totalRevenue;
     totalAvailableNights := totalAvailableNights |}.

(** The allocation of one reservation to a period: what the loop body adds
    to zeroed accumulators, i.e. the totals of the one-element list. *)
Definition nightsInPeriod (reservation : Reservation)
  (periodStart periodEnd : Date) : Z :=
  totalNights (calculateMonthMetrics [reservation] periodStart periodEnd 0).

Definition revenueInPeriod (reservation : Reservation)
  (periodStart periodEnd : Date) : num :=
  totalRevenue (calculateMonthMetrics [reservation] periodStart periodEnd 0).

End Engine.

Arguments Price num : clear implicits.
Arguments PriceNull {num}.
Arguments Reservation num : clear implicits.
Arguments MonthMetrics num : clear implicits.

(** ** Vocabulary of the specification, over the engine *)

Section Vocabulary.

Context {num : Type} {N : JsNumber num}.

(** The nights one loop iteration adds to [totalNights]. *)
Definition overlapNights (monthStart monthEnd : Date)
  (reservation : Reservation num) : Z :=
  if isAfter (overlapEnd monthEnd reservation)
             (overlapStart monthStart reservation)
  then differenceInDays (overlapEnd monthEnd reservation)
                        (overlapStart monthStart reservation)
  else 0.

(** The nights of the whole stay. *)
Definition totalStayNights (reservation : Reservation num) : Z :=
  differenceInDays (endDate reservation) (startDate reservation).

(** The total-stay price the loop prorates: the two branches of the revenue
    [if], in their order, and nothing when both tests fail. *)
Definition authoritativePrice (reservation : Reservation num) : num :=
  if truthy (nightlySubtotal reservation)
  then Number (nightlySubtotal reservation)
  else if truthy (totalPrice reservation)
  then Number (totalPrice reservation)
  else ofZ 0.

(** The rate per night of the stay that the loop multiplies by the nights in
    the month (0 for a stay without nights). *)
Definition nightlyRate (reservation : Reservation num) : num :=
  if 0 <? totalStayNights reservation
  then (authoritativePrice reservation / ofZ (totalStayNights reservation))%num
  else ofZ 0.

(** The authoritative price in the specification's words: [roomRevenue] if
    present, else [grossPrice] (and nothing to allocate when neither is). *)
Definition specAuthoritativePrice (reservation : Reservation num) : num :=
  match nightlySubtotal reservation with
  | PriceNull =>
      match totalPrice reservation with
      | PriceNull => ofZ 0
      | grossPrice => Number grossPrice
      end
  | roomRevenue => Number roomRevenue
  end.

(** A price field that is absent or passes the truthiness test: every
    [null] and every [Decimal] object, and the numbers other than 0 and
    NaN. *)
Definition nullOrTruthy (v : Price num) : Prop :=
  v = PriceNull \/ truthy v = true.

(** A price field as the Prisma client returns it for a nullable decimal
    column, the [decimal|null] of the specification: [null] or a [Decimal]
    object. *)
Definition asQueried (v : Price num) : Prop :=
  match v with
  | PriceNumber _ => False
  | _ => True
  end.

(** The two shapes of a price that is present. *)
Inductive PriceShape : Type := AsNumber | AsDecimal.

Definition priced (shape : PriceShape) (x : num) : Price num :=
  match shape with
  | AsNumber => PriceNumber x
  | AsDecimal => PriceDecimal x
  end.

(** The same reservation with another [totalPrice] / [nightlySubtotal]. *)
Definition withTotalPrice (gross : Price num) (reservation : Reservation num)
  : Reservation num :=
  {| startDate := startDate reservation;
     endDate := endDate reservation;
     totalPrice := gross;
     nightlySubtotal := nightlySubtotal reservation |}.

Definition withNightlySubtotal (room : Price num)
  (reservation : Reservation num) : Reservation num :=
  {| startDate := startDate reservation;
     endDate := endDate reservation;
     totalPrice := totalPrice reservation;
     nightlySubtotal := room |}.

Definition sumNum (xs : list num) : num := fold_right nadd (ofZ 0) xs.

End Vocabulary.

Definition sumZ (xs : list Z) : Z := fold_right Z.add 0 xs.

(** Adjacent periods [b0, b1), [b1, b2), ... cut at the boundaries [bs]. *)
Fixpoint periods (b0 : Date) (bs : list Date) : list (Date * Date) :=
  match bs with
  | [] => []
  | b1 :: bs' => (b0, b1) :: periods b1 bs'
  end.

Fixpoint ascending (b0 : Date) (bs : list Date) : Prop :=
  match bs with
  | [] => True
  | b1 :: bs' => b0 <= b1 /\ ascending b1 bs'
  end.

(** A reservation with a valid half-open date range, on whole calendar days,
    split across the adjacent periods cut at [b0 :: bs], themselves on whole
    days, which together cover the stay. *)
Definition splitAcross {num : Type} (reservation : Reservation num)
  (b0 : Date) (bs : list Date) : Prop :=
  startDate reservation < endDate reservation /\
  isMidnight (startDate reservation) /\
  isMidnight (endDate reservation) /\
  isMidnight b0 /\ Forall isMidnight bs /\
  ascending b0 bs /\
  b0 <= startDate reservation /\
  endDate reservation <= last bs b0.

(** ** The reservations of the specification's examples *)

Section Examples.

Context {num : Type} {N : JsNumber num}.

(** Jan 15 - Feb 15 of year [y], [roomRevenue = 3100] in either shape. *)
Definition fullContainmentStay (shape : PriceShape) (y : Z)
  (gross : Price num) : Reservation num :=
  {| startDate := midnight y 1 15;
     endDate := midnight y 2 15;
     totalPrice := gross;
     nightlySubtotal := priced shape (ofZ 3100) |}.

(** May 20 - Jul 10 of year [y], [roomRevenue = 2000] in either shape. *)
Definition multiMonthStay (shape : PriceShape) (y : Z)
  (gross : Price num) : Reservation num :=
  {| startDate := midnight y 5 20;
     endDate := midnight y 7 10;
     totalPrice := gross;
     nightlySubtotal := priced shape (ofZ 2000) |}.

(** A stay with [roomRevenue = 100] and [grossPrice = 130]. *)
Definition bothPricesStay (shape : PriceShape) (start finish : Date)
  : Reservation num :=
  {| startDate := start;
     endDate := finish;
     totalPrice := priced shape (ofZ 130);
     nightlySubtotal := priced shape (ofZ 100) |}.

(** Jan 31 - Feb 2, 2025, with [roomRevenue = 0] and [grossPrice = 130]. *)
Definition zeroSubtotalStay (shape : PriceShape) : Reservation num :=
  {| startDate := midnight 2025 1 31;
     endDate := midnight 2025 2 2;
     totalPrice := priced shape (ofZ 130);
     nightlySubtotal := priced shape (ofZ 0) |}.

(** Jan 31 noon - Feb 2 noon, 2025: a stay whose dates carry a time of day,
    with a room revenue of 200. *)
Definition noonStay : Reservation num :=
  {| startDate := midnight 2025 1 31 + 12 * 3600000;
     endDate := midnight 2025 2 2 + 12 * 3600000;
     totalPrice := PriceNull;
     nightlySubtotal := PriceDecimal (ofZ 200) |}.

End Examples.

(** A one-night stay in June 2025 with the given room revenue. *)
Definition oneNight (day : Z) (room : float) : Reservation float :=
  {| startDate := midnight 2025 6 day;
     endDate := midnight 2025 6 (day + 1);
     totalPrice := PriceNull;
     nightlySubtotal := PriceDecimal room |}.

(** The binary64 values that [Number(...)] gives for the decimals 0.1, 0.2
    and 0.3 (those of the JS literals). *)
Definition js_0_1 : float := 0x1.999999999999ap-4%float.
Definition js_0_2 : float := 0x1.999999999999ap-3%float.
Definition js_0_3 : float := 0x1.3333333333333p-2%float.

(** ** The callers of the engine: [getPortfolioMonthlyOutlook], [getWeeklyPacing] *)

Section Callers.

Context {num : Type} {N : JsNumber num}.

(** The date condition of the [wheelhouseReservation.findMany] queries, the
    [OR] of their [where] clause, on the two dates the queries select:
    [startDate] in [monthStart, monthEnd], or [endDate] in
    [monthStart, monthEnd], or [startDate < monthStart] and
    [endDate > monthEnd].  (The other conditions, on [propertyId], [bookedAt]
    and [status], read columns the engine never sees.) *)
Definition overlapsMonthWhere (monthStart monthEnd : Date)
  (reservation : Reservation num) : bool :=
  ((monthStart <=? startDate reservation)
   && (startDate reservation <=? monthEnd))
  || ((monthStart <=? endDate reservation)
      && (endDate reservation <=? monthEnd))
  || ((startDate reservation <? monthStart)
      && (monthEnd <? endDate reservation)).

(** [current !== null && baseline !== null ? current - baseline : null]:
    the absolute variance against STLY and the week-over-week pickup. *)
Definition difference (current baseline : option num) : option num :=
  match current, baseline with
  | Some c, Some b => Some (c - b)%num
  | _, _ => None
  end.

(** One entry of [metrics] in a row of [getPortfolioMonthlyOutlook]. *)
Record OutlookMetric : Type := {
  currentProjection : option num;
  stlyActual : option num;
  varianceAbsolute : option num;     (* varianceVsStly.absolute *)
  variancePercentage : option num;   (* varianceVsStly.percentage *)
  wowPickup : option num
}.

Definition outlookMetric (current weekAgo stly : option num) : OutlookMetric :=
  {| currentProjection := current;
     stlyActual := stly;
     varianceAbsolute := difference current stly;
     variancePercentage := calculatePercentageChange current stly;
     wowPickup := difference current weekAgo |}.

(** The [metrics] object of one month of [getPortfolioMonthlyOutlook]. *)
Record OutlookMetrics : Type := {
  outlookAdr : OutlookMetric;
  outlookOccupancy : OutlookMetric;
  outlookRevpar : OutlookMetric
}.

(** The body of the [months.map] callback of [getPortfolioMonthlyOutlook],
    from the three reservation lists the queries returned. *)
Definition monthOutlook
  (currentReservations weekAgoReservations stlyReservations
     : list (Reservation num))
  (monthStart monthEnd stlyMonthStart stlyMonthEnd : Date)
  (propertyCount : Z) : OutlookMetrics :=
  let currentMetrics :=
    calculateMonthMetrics currentReservations monthStart monthEnd
      propertyCount in
  let weekAgoMetrics :=
    calculateMonthMetrics weekAgoReservations monthStart monthEnd
      propertyCount in
  let stlyMetrics :=
    calculateMonthMetrics stlyReservations stlyMonthStart stlyMonthEnd
      propertyCount in
  {| outlookAdr :=
       outlookMetric (adr currentMetrics) (adr weekAgoMetrics)
         (adr stlyMetrics);
     outlookOccupancy :=
       outlookMetric (occupancy currentMetrics) (occupancy weekAgoMetrics)
         (occupancy stlyMetrics);
     outlookRevpar :=
       outlookMetric (revpar currentMetrics) (revpar weekAgoMetrics)
         (revpar stlyMetrics) |}.

(** The [wowPickup] object of one month of [getWeeklyPacing]:
    [(adr, occupancy, revpar)]. *)
Definition weeklyPacing
  (currentReservations weekAgoReservations : list (Reservation num))
  (monthStart monthEnd : Date) (propertyCount : Z)
  : option num * option num * option num :=
  let currentMetrics :=
    calculateMonthMetrics currentReservations monthStart monthEnd
      propertyCount in
  let weekAgoMetrics :=
    calculateMonthMetrics weekAgoReservations monthStart monthEnd
      propertyCount in
  (difference (adr currentMetrics) (adr weekAgoMetrics),
   difference (occupancy currentMetrics) (occupancy weekAgoMetrics),
   difference (revpar currentMetrics) (revpar weekAgoMetrics)).

End Callers.

Arguments OutlookMetric num : clear implicits.
Arguments OutlookMetrics num : clear implicits.

(** Periods in ascending order that do not overlap: each starts at or after
    the end of the one before (and [lo]), and does not end before it starts. *)
Fixpoint disjointAscending (lo : Date) (ps : list (Date * Date)) : Prop :=
  match ps with
  | [] => True
  | p :: ps' => lo <= fst p /\ fst p <= snd p /\ disjointAscending (snd p) ps'
  end.

(** The periods the callers pass for the months [m], [m + 1], ... of year
    [y]: from [startOfMonth] to [endOfMonth]. *)
Definition monthPeriod (y m : Z) : Date * Date :=
  (startOfMonth y m, endOfMonth y m).

(** ** [getComprehensiveAnalytics]: merging the market breakdown *)

Module KeyData.

(** A JS [Map] with string keys: the entries in insertion order.  [set] on a
    key that is present replaces its value in place, as [Map.prototype.set]
    does. *)
Definition JsMap (V : Type) : Type := list (String.string * V).

Fixpoint mapGet {V : Type} (key : String.string) (m : JsMap V) : option V :=
  match m with
  | [] => None
  | (k, v) :: m' => if String.eqb key k then Some v else mapGet key m'
  end.

Fixpoint mapSet {V : Type} (key : String.string) (value : V) (m : JsMap V)
  : JsMap V :=
  match m with
  | [] => [(key, value)]
  | (k, v) :: m' =>
      if String.eqb key k then (key, value) :: m'
      else (k, v) :: mapSet key value m'
  end.

(** A row of [outlookData]: the SQL row after the conversion to numbers. *)
Record OutlookRow (num : Type) : Type := {
  MonthYear : Date;
  Current_ADR : option num;
  STLY_ADR : option num;
  CurrentUserOccupancy : option num;
  CurrentUserSTLYOccupancy : option num;
  CurrentUserRevPAR : option num;
  CurrentUserSTLYRevPAR : option num
}.

Arguments MonthYear {num} _.
Arguments Current_ADR {num} _.
Arguments STLY_ADR {num} _.
Arguments CurrentUserOccupancy {num} _.
Arguments CurrentUserSTLYOccupancy {num} _.
Arguments CurrentUserRevPAR {num} _.
Arguments CurrentUserSTLYRevPAR {num} _.

(** A row of the result; [MonthYear] is the date that [toISOString()]
    renders. *)
Module Out.

Record ResultRow (num : Type) : Type := {
  MonthYear : Date;
  Current_ADR : option num;
  STLY_ADR : option num;
  CurrentUserOccupancy : option num;
  CurrentUserSTLYOccupancy : option num;
  CurrentUserRevPAR : option num;
  CurrentUserSTLYRevPAR : option num;
  Market_ADR_Current : option num;
  MarketOccupancyCurrent : option num;
  MarketRevPARCurrent : option num
}.

Arguments MonthYear {num} _.
Arguments Current_ADR {num} _.
Arguments STLY_ADR {num} _.
Arguments CurrentUserOccupancy {num} _.
Arguments CurrentUserSTLYOccupancy {num} _.
Arguments CurrentUserRevPAR {num} _.
Arguments CurrentUserSTLYRevPAR {num} _.
Arguments Market_ADR_Current {num} _.
Arguments MarketOccupancyCurrent {num} _.
Arguments MarketRevPARCurrent {num} _.

End Out.

Section Merge.

Context {num : Type} {N : JsNumber num}.

(** [format(date, 'yyyy-MM')] of [date-fns], the month key of a date. *)
Variable formatMonth : Date -> String.string.

(** An item of the [breakdown] array of the market response; [date] is
    [new Date(item.date)]: [None] stands for the Invalid Date that a string
    which does not parse gives. *)
Record BreakdownItem : Type := {
  date : option Date;
  adr : num;
  occupancy : num;
  revPar : num
}.

(** The values collected for one month: [{adr: [], occupancy: [], revpar: []}]. *)
Record MonthData : Type := {
  adrValues : list num;
  occupancyValues : list num;
  revparValues : list num
}.

(** The averages of one month: [{adr, occupancy, revpar}], each nullable. *)
Record MarketData : Type := {
  marketAdr : option num;
  marketOccupancy : option num;
  marketRevpar : option num
}.

Definition emptyMonthData : MonthData :=
  {| adrValues := []; occupancyValues := []; revparValues := [] |}.

Definition nullMarketData : MarketData :=
  {| marketAdr := None; marketOccupancy := None; marketRevpar := None |}.

(** "Initialize map for all months". *)
Definition initializeMap (outlookData : list (OutlookRow num)) : JsMap MonthData :=
  fold_left
    (fun marketDataMap data =>
       mapSet (formatMonth (MonthYear data)) emptyMonthData marketDataMap)
    outlookData [].

(** The three [push] calls on the month's object, which lives in the map. *)
Definition pushItem (monthData : MonthData) (item : BreakdownItem)
  : MonthData :=
  {| adrValues := adrValues monthData ++ [adr item];
     occupancyValues := occupancyValues monthData ++ [occupancy item];
     revparValues := revparValues monthData ++ [revPar item] |}.

(** One iteration of the loop over the breakdown.  [format] throws a
    [RangeError] on an Invalid Date: [None] is that exception. *)
Definition collectItem (m : JsMap MonthData) (item : BreakdownItem)
  : option (JsMap MonthData) :=
  match date item with
  | None => None
  | Some itemDate =>
      let monthKey := formatMonth itemDate in
      match mapGet monthKey m with
      | Some monthData => Some (mapSet monthKey (pushItem monthData item) m)
      | None => Some m
      end
  end.

(** The loop over [marketDataResponse.data.breakdown], which the first
    exception ends. *)
Definition collect (breakdown : list BreakdownItem)
  (marketDataMap : JsMap MonthData) : option (JsMap MonthData) :=
  fold_left
    (fun state item =>
       match state with
       | Some m => collectItem m item
       | None => None
       end)
    breakdown (Some marketDataMap).

(** [xs.length > 0 ? xs.reduce((sum, val) => sum + val, 0) / xs.length : null]. *)
Definition average (xs : list num) : option num :=
  if 0 <? Z.of_nat (length xs)
  then Some (fold_left (fun sum val => (sum + val)%num) xs (ofZ 0)
             / ofZ (Z.of_nat (length xs)))%num
  else None.

Definition averagesOf (data : MonthData) : MarketData :=
  {| marketAdr := average (adrValues data);
     marketOccupancy := average (occupancyValues data);
     marketRevpar := average (revparValues data) |}.

(** "Calculate averages for each month": the loop over the map's entries. *)
Definition marketAverages (marketDataMap : JsMap MonthData)
  : JsMap MarketData :=
  fold_left
    (fun averages entry => mapSet (fst entry) (averagesOf (snd entry)) averages)
    marketDataMap [].

(** [m.get(monthKey) || { adr: null, occupancy: null, revpar: null }]. *)
Definition getOrNull (monthKey : String.string) (m : JsMap MarketData)
  : MarketData :=
  match mapGet monthKey m with
  | Some marketData => marketData
  | None => nullMarketData
  end.

(** "Map market data to results". *)
Definition filteredMarketData (outlookData : list (OutlookRow num))
  (averages : JsMap MarketData) : JsMap MarketData :=
  fold_left
    (fun filtered data =>
       let monthKey := formatMonth (MonthYear data) in
       mapSet monthKey (getOrNull monthKey averages) filtered)
    outlookData [].

(** The object literal of a result row. *)
Definition withMarketData (row : OutlookRow num) (marketData : MarketData)
  : Out.ResultRow num :=
  {| Out.MonthYear := MonthYear row;
     Out.Current_ADR := Current_ADR row;
     Out.STLY_ADR := STLY_ADR row;
     Out.CurrentUserOccupancy := CurrentUserOccupancy row;
     Out.CurrentUserSTLYOccupancy := CurrentUserSTLYOccupancy row;
     Out.CurrentUserRevPAR := CurrentUserRevPAR row;
     Out.CurrentUserSTLYRevPAR := CurrentUserSTLYRevPAR row;
     Out.Market_ADR_Current := marketAdr marketData;
     Out.MarketOccupancyCurrent := marketOccupancy marketData;
     Out.MarketRevPARCurrent := marketRevpar marketData |}.

(** The seven columns of a result row that come from the SQL row. *)
Definition userColumns (result : Out.ResultRow num) : OutlookRow num :=
  {| MonthYear := Out.MonthYear result;
     Current_ADR := Out.Current_ADR result;
     STLY_ADR := Out.STLY_ADR result;
     CurrentUserOccupancy := Out.CurrentUserOccupancy result;
     CurrentUserSTLYOccupancy := Out.CurrentUserSTLYOccupancy result;
     CurrentUserRevPAR := Out.CurrentUserRevPAR result;
     CurrentUserSTLYRevPAR := Out.CurrentUserSTLYRevPAR result |}.

(** The three market columns of a result row. *)
Definition marketColumns (result : Out.ResultRow num) : MarketData :=
  {| marketAdr := Out.Market_ADR_Current result;
     marketOccupancy := Out.MarketOccupancyCurrent result;
     marketRevpar := Out.MarketRevPARCurrent result |}.

(** The rows returned when the market data is not used. *)
Definition withoutMarket (outlookData : list (OutlookRow num)) : list (Out.ResultRow num) :=
  map (fun r => withMarketData r nullMarketData) outlookData.

(** The rows computed after the request succeeded; [breakdown] is [None]
    when the response carries no breakdown.  The result is [None] when the
    collection loop threw. *)
Definition resultsWithMarket (outlookData : list (OutlookRow num))
  (breakdown : option (list BreakdownItem))
  : option (list (Out.ResultRow num)) :=
  let marketDataMap := initializeMap outlookData in
  let collected :=
    match breakdown with
    | Some items => collect items marketDataMap
    | None => Some marketDataMap
    end in
  match collected with
  | None => None
  | Some collected =>
      let filtered :=
        filteredMarketData outlookData (marketAverages collected) in
      Some
        (map (fun r =>
                withMarketData r
                  (getOrNull (formatMonth (MonthYear r)) filtered))
           outlookData)
  end.

(** What the market lookup came to. *)
Inductive MarketFetch : Type :=
| NoMarketId                                  (* the organization has none *)
| RequestFailed                               (* a lookup or the request threw *)
| Response (breakdown : option (list BreakdownItem)).

(** The part of [getComprehensiveAnalytics] after the rows are read.  With
    no row, [outlookData[0].MonthYear] throws while the request is built;
    with an item whose date does not parse, [format] throws in the
    collection loop; either way the [catch] returns the rows without market
    data. *)
Definition getComprehensiveAnalytics (outlookData : list (OutlookRow num))
  (market : MarketFetch) : list (Out.ResultRow num) :=
  match market with
  | NoMarketId => withoutMarket outlookData
  | RequestFailed => withoutMarket outlookData
  | Response breakdown =>
      match outlookData with
      | [] => withoutMarket outlookData
      | _ :: _ =>
          match resultsWithMarket outlookData breakdown with
          | Some resultsWithMarket => resultsWithMarket
          | None => withoutMarket outlookData
          end
      end
  end.

(** Whether the date of every item of the breakdown parses. *)
Definition datesParse (breakdown : list BreakdownItem) : bool :=
  forallb (fun item => match date item with Some _ => true | None => false end)
    breakdown.

(** The items of the breakdown that fall in the month of a row, in the order
    of the response, and their averages. *)
Definition itemsOfMonth (breakdown : list BreakdownItem) (r : OutlookRow num)
  : list BreakdownItem :=
  filter
    (fun item =>
       match date item with
       | Some itemDate =>
           String.eqb (formatMonth itemDate) (formatMonth (MonthYear r))
       | None => false
       end)
    breakdown.

Definition monthAverages (breakdown : list BreakdownItem) (r : OutlookRow num)
  : MarketData :=
  {| marketAdr := average (map adr (itemsOfMonth breakdown r));
     marketOccupancy := average (map occupancy (itemsOfMonth breakdown r));
     marketRevpar := average (map revPar (itemsOfMonth breakdown r)) |}.

End Merge.

Arguments BreakdownItem num : clear implicits.
Arguments MonthData num : clear implicits.
Arguments MarketData num : clear implicits.
Arguments MarketFetch num : clear implicits.

(** A row of June 2025 with an ADR of 150 and no other value. *)
Definition sampleRow : OutlookRow float :=
  {| MonthYear := midnight 2025 6 1;
     Current_ADR := Some (ofZ 150);
     STLY_ADR := None;
     CurrentUserOccupancy := None;
     CurrentUserSTLYOccupancy := None;
     CurrentUserRevPAR := None;
     CurrentUserSTLYRevPAR := None |}.

End KeyData.

(** ** [getOrganizationTaskSummary] of the admin router *)

Module Admin.

Local Open Scope string_scope.
Local Open Scope Z_scope.

(** The columns of a task that the query selects and the summary reads. *)
Record Task : Type := {
  status : String.string;
  dueDate : option Date;
  updatedAt : Date
}.

(** An organization with its tasks that are not deleted. *)
Record Organization : Type := {
  id : String.string;
  name : String.string;
  tasks : list Task
}.

(** A row of the summary; the three counts are [BigInt]s. *)
Record Summary : Type := {
  organizationId : String.string;
  organizationName : String.string;
  totalTasks : Z;
  openTaskCount : Z;
  overdueTaskCount : Z;
  lastActivity : option Date
}.

(** [task.status === 'NOT_STARTED' || task.status === 'IN_PROGRESS']. *)
Definition isOpen (task : Task) : bool :=
  String.eqb (status task) "NOT_STARTED"
  || String.eqb (status task) "IN_PROGRESS".

(** [task.dueDate && new Date(task.dueDate) < new Date()], with [now] the
    instant that [new Date()] returns while the request runs. *)
Definition isOverdue (now : Date) (task : Task) : bool :=
  match dueDate task with
  | Some due => due <? now
  | None => false
  end.

(** The [reduce] that finds the latest [updatedAt], from [new Date(0)]. *)
Definition latestUpdate (ts : list Task) : Date :=
  fold_left
    (fun latest task =>
       if latest <? updatedAt task then updatedAt task else latest)
    ts 0.

(** The callback of [organizationSummaries.map]. *)
Definition summarize (now : Date) (org : Organization) : Summary :=
  let totalTasks := length (tasks org) in
  let openTasks := filter isOpen (tasks org) in
  let openTaskCount := length openTasks in
  let overdueTaskCount := length (filter (isOverdue now) openTasks) in
  let lastActivity :=
    if (0 <? length (tasks org))%nat then Some (latestUpdate (tasks org))
    else None in
  {| organizationId := id org;
     organizationName := name org;
     totalTasks := Z.of_nat totalTasks;
     openTaskCount := Z.of_nat openTaskCount;
     overdueTaskCount := Z.of_nat overdueTaskCount;
     lastActivity := lastActivity |}.

(** The comparator passed to [sort]. *)
Definition compareSummaries (a b : Summary) : Z :=
  if negb (openTaskCount a =? openTaskCount b)
  then openTaskCount b - openTaskCount a
  else if negb (overdueTaskCount a =? overdueTaskCount b)
  then overdueTaskCount b - overdueTaskCount a
  else
    match lastActivity a, lastActivity b with
    | None, None => 0
    | None, Some _ => 1
    | Some _, None => -1
    | Some ta, Some tb => tb - ta
    end.

(** [Array.prototype.sort(compare)]: a stable sort, here by insertion. *)
Fixpoint insertBy {A : Type} (compare : A -> A -> Z) (x : A) (sorted : list A)
  : list A :=
  match sorted with
  | [] => [x]
  | y :: rest =>
      if compare x y <=? 0 then x :: y :: rest
      else y :: insertBy compare x rest
  end.

Definition sortBy {A : Type} (compare : A -> A -> Z) (l : list A) : list A :=
  fold_right (insertBy compare) [] l.

(** The procedure, from the organizations the query returned. *)
Definition getOrganizationTaskSummary (now : Date)
  (organizationSummaries : list Organization) : list Summary :=
  sortBy compareSummaries (map (summarize now) organizationSummaries).

(** The order the comment of the source names: open tasks descending, then
    overdue tasks descending, then last activity descending, an
    organization without activity after the others. *)
Definition latestFirst (a b : option Date) : Prop :=
  match a, b with
  | None, None => True
  | None, Some _ => False
  | Some _, None => True
  | Some ta, Some tb => tb <= ta
  end.

Definition precedes (a b : Summary) : Prop :=
  openTaskCount b < openTaskCount a \/
  (openTaskCount a = openTaskCount b /\
   (overdueTaskCount b < overdueTaskCount a \/
    (overdueTaskCount a = overdueTaskCount b /\
     latestFirst (lastActivity a) (lastActivity b)))).

(** Two organizations: one with an open task, one without any task. *)
Definition busyOrganization : Organization :=
  {| id := "org-b";
     name := "B";
     tasks := [{| status := "IN_PROGRESS";
                  dueDate := None;
                  updatedAt := 5 |}] |}.

Definition idleOrganization : Organization :=
  {| id := "org-a"; name := "A"; tasks := [] |}.

End Admin.

(** * Properties *)

(** ** Full days between two dates *)

Lemma compareLocalAsc_cases (l r : Date) :
  (l < r /\ compareLocalAsc l r = -1) \/
  (l = r /\ compareLocalAsc l r = 0) \/
  (r < l /\ compareLocalAsc l r = 1).
Proof.
  unfold compareLocalAsc.
  destruct (Z.compare_spec l r); lia.
Qed.

Lemma full_days_pos (D l r : Z) :
  0 < D -> r < l ->
  let shifted := l - (l / D - r / D) * D in
  Z.quot (l - r) D = (l / D - r / D) - (if shifted <? r then 1 else 0).
Proof.
  intros HD Hlt shifted.
  rewrite Z.quot_div_nonneg by lia.
  pose proof (Z.div_mod l D ltac:(lia)) as El.
  pose proof (Z.div_mod r D ltac:(lia)) as Er.
  pose proof (Z.mod_pos_bound l D HD) as Bl.
  pose proof (Z.mod_pos_bound r D HD) as Br.
  subst shifted.
  destruct (Z.ltb_spec (l - (l / D - r / D) * D) r) as [Hs | Hs].
  - symmetry. apply Z.div_unique with (r := l mod D - r mod D + D); nia.
  - symmetry. apply Z.div_unique with (r := l mod D - r mod D); nia.
Qed.

Lemma differenceInDays_quot (l r : Date) :
  differenceInDays l r = Z.quot (l - r) MS_PER_DAY.
Proof.
  assert (HD : 0 < MS_PER_DAY) by reflexivity.
  unfold differenceInDays, differenceInCalendarDays.
  generalize dependent MS_PER_DAY. intros D HD.
  destruct (compareLocalAsc_cases l r) as [[Hlr ->] | [[Hlr ->] | [Hlr ->]]].
  - (* l < r *)
    replace (l - r) with (- (r - l)) by lia.
    rewrite Z.quot_opp_l by lia.
    rewrite (full_days_pos D r l HD Hlr).
    assert (Hq : l / D <= r / D) by (apply Z.div_le_mono; lia).
    rewrite Z.abs_neq by lia.
    replace (l - -1 * - (l / D - r / D) * D) with (l - (l / D - r / D) * D) by ring.
    destruct (compareLocalAsc_cases (l - (l / D - r / D) * D) r)
      as [[Hs ->] | [[Hs ->] | [Hs ->]]];
      destruct (Z.ltb_spec (r - (r / D - l / D) * D) l);
      match goal with |- context [?a =? ?b] => destruct (Z.eqb_spec a b) end; lia.
  - rewrite Hlr, (Z.sub_diag r), Z.quot_0_l by lia. lia.
  - rewrite (full_days_pos D l r HD Hlr).
    assert (Hq : r / D <= l / D) by (apply Z.div_le_mono; lia).
    rewrite Z.abs_eq by lia.
    replace (l - 1 * (l / D - r / D) * D) with (l - (l / D - r / D) * D) by ring.
    destruct (compareLocalAsc_cases (l - (l / D - r / D) * D) r)
      as [[Hs ->] | [[Hs ->] | [Hs ->]]];
      destruct (Z.ltb_spec (l - (l / D - r / D) * D) r);
      match goal with |- context [?a =? ?b] => destruct (Z.eqb_spec a b) end; lia.
Qed.

Lemma differenceInDays_midnights (a b : Z) :
  differenceInDays (a * MS_PER_DAY) (b * MS_PER_DAY) = a - b.
Proof.
  rewrite differenceInDays_quot, <- Z.mul_sub_distr_r.
  apply Z.quot_mul. discriminate.
Qed.

Lemma isMidnight_day (t : Date) :
  isMidnight t -> t = (t / MS_PER_DAY) * MS_PER_DAY.
Proof.
  unfold isMidnight. intros H.
  pose proof (Z.div_mod t MS_PER_DAY ltac:(discriminate)). lia.
Qed.

(** ** The loop, one iteration at a time *)

Section LoopFacts.

Context {num : Type} {N : JsNumber num}.

Implicit Types (r : Reservation num) (acc : Z * num).

(** An iteration without overlap leaves both accumulators untouched. *)
Lemma accumulate_no_overlap ms me acc r :
  isAfter (overlapEnd me r) (overlapStart ms r) = false ->
  accumulate ms me acc r = acc.
Proof.
  intros H. unfold accumulate. now rewrite H.
Qed.

(** The nights accumulator does not depend on the prices. *)
Lemma accumulate_nights ms me acc r :
  fst (accumulate ms me acc r) = fst acc + overlapNights ms me r.
Proof.
  unfold accumulate, overlapNights.
  destruct (isAfter (overlapEnd me r) (overlapStart ms r)); [| simpl; lia].
  destruct (truthy (nightlySubtotal r)); [reflexivity |].
  destruct (truthy (totalPrice r)); reflexivity.
Qed.

Lemma overlapNights_nonneg ms me r : 0 <= overlapNights ms me r.
Proof.
  unfold overlapNights, isAfter.
  destruct (Z.ltb_spec (overlapStart ms r) (overlapEnd me r)) as [H | H];
    [| lia].
  rewrite differenceInDays_quot.
  apply Z.quot_pos; [lia | reflexivity].
Qed.

Lemma fold_accumulate_nights ms me rs acc :
  fst (fold_left (accumulate ms me) rs acc)
  = fst acc + sumZ (map (overlapNights ms me) rs).
Proof.
  revert acc. induction rs as [| r rs IH]; intros acc; simpl.
  - lia.
  - rewrite IH, accumulate_nights. lia.
Qed.

Lemma totalNights_sum rs ms me pc :
  totalNights (calculateMonthMetrics rs ms me pc)
  = sumZ (map (overlapNights ms me) rs).
Proof.
  unfold calculateMonthMetrics. simpl.
  now rewrite fold_accumulate_nights.
Qed.

Lemma sumZ_nonneg (xs : list Z) :
  Forall (fun x => 0 <= x) xs -> 0 <= sumZ xs.
Proof.
  induction 1; simpl; lia.
Qed.

Lemma totalNights_nonneg rs ms me pc :
  0 <= totalNights (calculateMonthMetrics rs ms me pc).
Proof.
  rewrite totalNights_sum. apply sumZ_nonneg.
  apply Forall_forall. intros x Hx.
  apply in_map_iff in Hx. destruct Hx as [r [<- _]].
  apply overlapNights_nonneg.
Qed.

Lemma nightsInPeriod_overlap r ms me :
  nightsInPeriod r ms me = overlapNights ms me r.
Proof.
  unfold nightsInPeriod. rewrite totalNights_sum. simpl. lia.
Qed.

(** The revenue of a one-element aggregation is the second accumulator of
    one iteration from zero. *)
Lemma revenueInPeriod_accumulate r ms me :
  revenueInPeriod r ms me = snd (accumulate ms me (0, ofZ 0) r).
Proof. reflexivity. Qed.

(** The iteration when the room revenue is truthy. *)
Lemma accumulate_room ms me acc r :
  isAfter (overlapEnd me r) (overlapStart ms r) = true ->
  truthy (nightlySubtotal r) = true ->
  accumulate ms me acc r
  = (fst acc + overlapNights ms me r,
     (snd acc
      + (if 0 <? totalStayNights r
         then Number (nightlySubtotal r) / ofZ (totalStayNights r)
         else ofZ 0)
        * ofZ (overlapNights ms me r))%num).
Proof.
  intros Ho Ht. unfold accumulate, overlapNights, totalStayNights.
  now rewrite Ho, Ht.
Qed.

(** The iteration when the room revenue is falsy and the gross price truthy. *)
Lemma accumulate_gross ms me acc r :
  isAfter (overlapEnd me r) (overlapStart ms r) = true ->
  truthy (nightlySubtotal r) = false ->
  truthy (totalPrice r) = true ->
  accumulate ms me acc r
  = (fst acc + overlapNights ms me r,
     (snd acc
      + (if 0 <? totalStayNights r
         then (Number (totalPrice r) / ofZ (totalStayNights r))
              * ofZ (overlapNights ms me r)
         else ofZ 0))%num).
Proof.
  intros Ho Hn Ht. unfold accumulate, overlapNights, totalStayNights.
  now rewrite Ho, Hn, Ht.
Qed.

(** The iteration when both prices are falsy. *)
Lemma accumulate_no_price ms me acc r :
  truthy (nightlySubtotal r) = false ->
  truthy (totalPrice r) = false ->
  accumulate ms me acc r = (fst acc + overlapNights ms me r, snd acc).
Proof.
  intros Hn Ht. unfold accumulate, overlapNights.
  rewrite Hn, Ht.
  destruct (isAfter (overlapEnd me r) (overlapStart ms r)); [reflexivity |].
  destruct acc; simpl. f_equal. lia.
Qed.

End LoopFacts.

(** ** The calendar *)

Lemma daysBeforeMarch1_succ (y : Z) :
  daysBeforeMarch1 (y + 1) - daysBeforeMarch1 y
  = if isLeapYear (y + 1) then 366 else 365.
Proof.
  unfold daysBeforeMarch1, isLeapYear.
  destruct (Z.eqb_spec ((y + 1) mod 4) 0);
  destruct (Z.eqb_spec ((y + 1) mod 100) 0);
  destruct (Z.eqb_spec ((y + 1) mod 400) 0); cbn [andb orb negb].
  all: Z.div_mod_to_equations; lia.
Qed.

Lemma month_length (y m : Z) :
  1 <= m <= 12 ->
  (if m =? 12 then daysFromCivil (y + 1) 1 1 else daysFromCivil y (m + 1) 1)
  - daysFromCivil y m 1 = daysInMonth y m.
Proof.
  intros Hm.
  assert (Hc : m = 1 \/ m = 2 \/ m = 3 \/ m = 4 \/ m = 5 \/ m = 6 \/ m = 7 \/
               m = 8 \/ m = 9 \/ m = 10 \/ m = 11 \/ m = 12) by lia.
  pose proof (daysBeforeMarch1_succ (y - 1)) as Hy.
  replace (y - 1 + 1) with y in Hy by lia.
  unfold daysFromCivil, daysInMonth.
  repeat (destruct Hc as [-> | Hc]); try subst m;
    cbn [Z.eqb Z.leb Z.compare Pos.compare Pos.compare_cont Pos.eqb Z.add Pos.add Pos.succ Pos.add_carry orb];
    try (replace (y + 1 - 1) with y by lia);
    repeat match goal with
    | |- context [(153 * (?k mod 12) + 2) / 5] =>
        let v := eval vm_compute in ((153 * (k mod 12) + 2) / 5) in
        change ((153 * (k mod 12) + 2) / 5) with v
    end;
    try (destruct (isLeapYear y)); lia.
Qed.

Lemma differenceInDays_endOfMonth (y m : Z) :
  1 <= m <= 12 ->
  differenceInDays (endOfMonth y m) (startOfMonth y m) + 1 = daysInMonth y m.
Proof.
  intros Hm. pose proof (month_length y m Hm) as Hl.
  assert (Hpos : 28 <= daysInMonth y m).
  { unfold daysInMonth.
    destruct (m =? 2); [destruct (isLeapYear y); lia |].
    destruct ((m =? 4) || (m =? 6) || (m =? 9) || (m =? 11)); lia. }
  rewrite differenceInDays_quot.
  unfold endOfMonth, startOfMonth, midnight.
  set (next := if m =? 12 then daysFromCivil (y + 1) 1 1
               else daysFromCivil y (m + 1) 1) in Hl.
  replace ((if m =? 12 then daysFromCivil (y + 1) 1 1 * MS_PER_DAY
            else daysFromCivil y (m + 1) 1 * MS_PER_DAY) - 1
           - daysFromCivil y m 1 * MS_PER_DAY)
    with ((daysInMonth y m - 1) * MS_PER_DAY + (MS_PER_DAY - 1)).
  - rewrite Z.quot_div_nonneg by (unfold MS_PER_DAY; lia).
    rewrite Z.div_add_l by discriminate.
    change ((MS_PER_DAY - 1) / MS_PER_DAY) with 0. lia.
  - subst next. destruct (m =? 12); lia.
Qed.

(** ** Boundaries of the period *)

(** C5. A reservation that ends where the period starts, or starts where the
    period ends, or more generally whose clamped overlap has
    [overlapEnd <= overlapStart], is allocated zero nights and zero revenue:
    its loop iteration leaves the accumulators as they were. *)
Theorem boundary_half_open {num : Type} {N : JsNumber num}
  (r : Reservation num) (periodStart periodEnd : Date) :
  endDate r = periodStart \/ startDate r = periodEnd \/
  overlapEnd periodEnd r <= overlapStart periodStart r ->
  nightsInPeriod r periodStart periodEnd = 0 /\
  revenueInPeriod r periodStart periodEnd = ofZ 0 /\
  forall acc, accumulate periodStart periodEnd acc r = acc.
Proof.
  intros H.
  assert (Hle : overlapEnd periodEnd r <= overlapStart periodStart r).
  { unfold overlapEnd, overlapStart, isBefore, isAfter in *.
    destruct (Z.ltb_spec (endDate r) periodEnd),
             (Z.ltb_spec periodStart (startDate r)); lia. }
  assert (Hno : isAfter (overlapEnd periodEnd r) (overlapStart periodStart r)
                = false).
  { unfold isAfter. apply Z.ltb_ge. exact Hle. }
  repeat split.
  - rewrite nightsInPeriod_overlap. unfold overlapNights. now rewrite Hno.
  - rewrite revenueInPeriod_accumulate.
    now rewrite accumulate_no_overlap.
  - intros acc. now apply accumulate_no_overlap.
Qed.

(** The stay of Jan 15 - Feb 15, 2025 against the period that starts on
    Feb 15. *)
Lemma boundary_half_open_witness :
  endDate (fullContainmentStay (num := float) AsDecimal 2025 PriceNull) = midnight 2025 2 15 /\
  nightsInPeriod (fullContainmentStay (num := float) AsDecimal 2025 PriceNull)
    (midnight 2025 2 15) (midnight 2025 3 1) = 0 /\
  revenueInPeriod (fullContainmentStay (num := float) AsDecimal 2025 PriceNull)
    (midnight 2025 2 15) (midnight 2025 3 1) = 0%float.
Proof.
  split; [reflexivity |].
  destruct (boundary_half_open (fullContainmentStay (num := float) AsDecimal 2025 PriceNull)
              (midnight 2025 2 15) (midnight 2025 3 1)) as [Hn [Hr _]].
  - left. reflexivity.
  - split; [exact Hn | exact Hr].
Defined.

(** ** Available nights *)

(** C6, as the specification words it, fails: over the half-open January
    [Jan 1, Feb 1) of 2025 with one property the engine reports 32 available
    nights, while [1 * daysBetween(periodStart, periodEnd)] is 31. *)
Lemma available_nights_half_open_counterexample :
  totalAvailableNights
    (calculateMonthMetrics (num := float) []
       (midnight 2025 1 1) (midnight 2025 2 1) 1) = 32 /\
  1 * differenceInDays (midnight 2025 2 1) (midnight 2025 1 1) = 31.
Proof. split; vm_compute; reflexivity. Qed.

(** C6, amended. [totalAvailableNights] is the property count times
    [differenceInDays(monthEnd, monthStart) + 1]: the period end is its last
    instant, not the first instant after it.  For a calendar month passed as
    the callers do, from [startOfMonth] to [endOfMonth], this is the property
    count times the number of days of the month. *)
Theorem available_nights_formula :
  (forall (num : Type) (N : JsNumber num) (rs : list (Reservation num))
          (monthStart monthEnd : Date) (propertyCount : Z),
     totalAvailableNights
       (calculateMonthMetrics rs monthStart monthEnd propertyCount)
     = propertyCount * (differenceInDays monthEnd monthStart + 1)) /\
  (forall (num : Type) (N : JsNumber num) (rs : list (Reservation num))
          (y m propertyCount : Z),
     1 <= m <= 12 ->
     totalAvailableNights
       (calculateMonthMetrics rs (startOfMonth y m) (endOfMonth y m)
          propertyCount)
     = propertyCount * daysInMonth y m).
Proof.
  split.
  - reflexivity.
  - intros num N rs y m pc Hm.
    rewrite <- (differenceInDays_endOfMonth y m Hm). reflexivity.
Qed.

(** June 2025 with 316 properties: 316 * 30 available nights. *)
Lemma available_nights_formula_witness :
  1 <= 6 <= 12 /\
  totalAvailableNights
    (calculateMonthMetrics [multiMonthStay (num := float) AsDecimal 2025 PriceNull]
       (startOfMonth 2025 6) (endOfMonth 2025 6) 316)
  = 316 * 30.
Proof.
  split; [lia |].
  exact (proj2 available_nights_formula float binary64
           [multiMonthStay AsDecimal 2025 PriceNull] 2025 6 316 ltac:(lia)).
Defined.

(** ** Degenerate denominators *)

Lemma differenceInDays_nonneg (l r : Date) :
  r <= l -> 0 <= differenceInDays l r.
Proof.
  intros H. rewrite differenceInDays_quot.
  apply Z.quot_pos; [lia | reflexivity].
Qed.

(** The guards of the three ratios, on every input. *)
Lemma ratio_guards {num : Type} {N : JsNumber num}
  (rs : list (Reservation num)) (ms me : Date) (pc : Z) :
  (adr (calculateMonthMetrics rs ms me pc) = None
   <-> totalNights (calculateMonthMetrics rs ms me pc) <= 0) /\
  (occupancy (calculateMonthMetrics rs ms me pc) = None
   <-> totalAvailableNights (calculateMonthMetrics rs ms me pc) <= 0) /\
  (revpar (calculateMonthMetrics rs ms me pc) = None
   <-> totalAvailableNights (calculateMonthMetrics rs ms me pc) <= 0).
Proof.
  unfold calculateMonthMetrics. cbn [adr occupancy revpar totalNights
                                     totalAvailableNights].
  repeat split;
    match goal with
    | |- context [0 <? ?x] => destruct (Z.ltb_spec 0 x)
    end; intros; try lia; try discriminate; reflexivity.
Qed.

(** C7. [calculateMonthMetrics] is a total function.  On an empty
    reservation list with no property it returns zero nights, zero revenue
    and [null] for occupancy, ADR and RevPAR.  In general ADR is [null]
    exactly when the total nights are 0, and, for a property count that is
    not negative over a period that does not end before it starts, occupancy
    and RevPAR are [null] exactly when the available nights are 0. *)
Theorem null_safe_denominators :
  (forall (num : Type) (N : JsNumber num) (monthStart monthEnd : Date),
     calculateMonthMetrics [] monthStart monthEnd 0
     = {| adr := None; occupancy := None; revpar := None;
          totalNights := 0; totalRevenue := ofZ 0;
          totalAvailableNights := 0 |}) /\
  (forall (num : Type) (N : JsNumber num) (rs : list (Reservation num))
          (monthStart monthEnd : Date) (propertyCount : Z),
     adr (calculateMonthMetrics rs monthStart monthEnd propertyCount) = None
     <-> totalNights
           (calculateMonthMetrics rs monthStart monthEnd propertyCount) = 0) /\
  (forall (num : Type) (N : JsNumber num) (rs : list (Reservation num))
          (monthStart monthEnd : Date) (propertyCount : Z),
     0 <= propertyCount -> monthStart <= monthEnd ->
     (occupancy (calculateMonthMetrics rs monthStart monthEnd propertyCount)
      = None
      <-> totalAvailableNights
            (calculateMonthMetrics rs monthStart monthEnd propertyCount) = 0)
     /\
     (revpar (calculateMonthMetrics rs monthStart monthEnd propertyCount)
      = None
      <-> totalAvailableNights
            (calculateMonthMetrics rs monthStart monthEnd propertyCount) = 0)).
Proof.
  split; [| split].
  - intros num N ms me. reflexivity.
  - intros num N rs ms me pc.
    pose proof (totalNights_nonneg rs ms me pc) as Hn.
    destruct (ratio_guards rs ms me pc) as [Ha _].
    rewrite Ha. lia.
  - intros num N rs ms me pc Hpc Hp.
    assert (Hav : 0 <= totalAvailableNights
                         (calculateMonthMetrics rs ms me pc)).
    { cbn [calculateMonthMetrics totalAvailableNights].
      pose proof (differenceInDays_nonneg me ms Hp). nia. }
    destruct (ratio_guards rs ms me pc) as [_ [Ho Hr]].
    rewrite Ho, Hr. lia.
Qed.

(** June 2025 without properties. *)
Lemma null_safe_denominators_witness :
  0 <= 0 /\ startOfMonth 2025 6 <= endOfMonth 2025 6 /\
  (occupancy
     (calculateMonthMetrics [multiMonthStay (num := float) AsDecimal 2025 PriceNull]
        (startOfMonth 2025 6) (endOfMonth 2025 6) 0) = None
   <-> totalAvailableNights
         (calculateMonthMetrics [multiMonthStay (num := float) AsDecimal 2025 PriceNull]
            (startOfMonth 2025 6) (endOfMonth 2025 6) 0) = 0).
Proof.
  split; [lia |]. split; [vm_compute; discriminate |].
  exact (proj1 (proj2 (proj2 null_safe_denominators) float binary64
                  [multiMonthStay AsDecimal 2025 PriceNull]
                  (startOfMonth 2025 6) (endOfMonth 2025 6) 0
                  ltac:(lia) ltac:(vm_compute; discriminate))).
Defined.

(** ** Percentage variance *)

(** C8. The percentage variance is [(current - baseline) / baseline * 100];
    it is [null] if and only if [current] is [null], [baseline] is [null] or
    [baseline === 0].  In particular the variance of 50 against 0 is
    [null]. *)
Theorem percentage_variance_guard :
  (forall (num : Type) (N : JsNumber num) (current baseline : option num),
     (calculatePercentageChange current baseline = None
      <-> current = None \/ baseline = None \/
          exists b, baseline = Some b /\ isZero b = true) /\
     (forall c b, current = Some c -> baseline = Some b ->
        isZero b = false ->
        calculatePercentageChange current baseline
        = Some (((c - b) / b) * ofZ 100)%num)) /\
  calculatePercentageChange (Some 50%float) (Some 0%float) = None /\
  calculatePercentageChange (Some (ofZ 50 : Qc)) (Some (ofZ 0)) = None.
Proof.
  split; [| split; reflexivity].
  intros num N current baseline. split.
  - unfold calculatePercentageChange.
    destruct current as [c |], baseline as [b |].
    + destruct (isZero b) eqn:Hz; split.
      * intros _. right. right. exists b. now split.
      * reflexivity.
      * discriminate.
      * intros [H | [H | [b' [H Hb']]]]; try discriminate.
        injection H as <-. congruence.
    + split; [intros _; right; left; reflexivity | reflexivity].
    + split; [intros _; left; reflexivity | reflexivity].
    + split; [intros _; left; reflexivity | reflexivity].
  - intros c b -> -> Hz. unfold calculatePercentageChange. now rewrite Hz.
Qed.

(** 50 against 40: 25 percent. *)
Lemma percentage_variance_guard_witness :
  isZero 40%float = false /\
  calculatePercentageChange (Some 50%float) (Some 40%float) = Some 25%float.
Proof.
  split; [reflexivity |].
  exact (proj2 (proj1 percentage_variance_guard float binary64
                  (Some 50%float) (Some 40%float))
           50%float 40%float eq_refl eq_refl eq_refl).
Defined.

(** ** Which price is prorated *)

Section PriceFacts.

Context {num : Type} {N : JsNumber num}.

Implicit Types (r : Reservation num) (acc : Z * num).

(** With a truthy room revenue the gross price is never read. *)
Lemma accumulate_ignores_gross ms me acc r gross :
  truthy (nightlySubtotal r) = true ->
  accumulate ms me acc (withTotalPrice gross r) = accumulate ms me acc r.
Proof.
  intros Ht. unfold accumulate, overlapStart, overlapEnd. cbn [withTotalPrice
    startDate endDate nightlySubtotal totalPrice].
  now rewrite Ht.
Qed.

(** A falsy room revenue is not read either: the iteration is that of the
    reservation whose room revenue is [null]. *)
Lemma accumulate_falsy_room ms me acc r :
  truthy (nightlySubtotal r) = false ->
  accumulate ms me acc r
  = accumulate ms me acc (withNightlySubtotal PriceNull r).
Proof.
  intros Ht. unfold accumulate, overlapStart, overlapEnd. cbn [withNightlySubtotal
    startDate endDate nightlySubtotal totalPrice truthy].
  now rewrite Ht.
Qed.

Lemma truthy_zero (z : num) :
  isZero z = true -> truthy (PriceNumber z) = false.
Proof. intros H. unfold truthy. now rewrite H. Qed.

(** A price that is present as the queries return it passes the test. *)
Lemma asQueried_truthy (v : Price num) :
  asQueried v -> v <> PriceNull -> truthy v = true.
Proof.
  destruct v; cbn [asQueried truthy]; intros Hq Hp;
    [congruence | contradiction | reflexivity].
Qed.

End PriceFacts.

(** C3. For every reservation whose room revenue is present as the queries
    of the callers return it (a [Decimal] object, whatever its value), and
    more generally whenever it passes the truthiness test, the allocation is
    computed from the room revenue and never from the gross price: the loop
    iteration is the same whatever the gross price is, and adds
    [roomRevenue / stayNights * nightsInMonth].  A reservation with room
    revenue 100 and gross price 130 is allocated from the 100: over a period
    that contains a two-night stay, 100.  If neither price is present the
    revenue in the period is 0. *)
Theorem revenue_field_precedence :
  (forall (num : Type) (N : JsNumber num) (r : Reservation num)
          (periodStart periodEnd : Date) (acc : Z * num),
     asQueried (nightlySubtotal r) -> nightlySubtotal r <> PriceNull ->
     (forall gross,
        accumulate periodStart periodEnd acc (withTotalPrice gross r)
        = accumulate periodStart periodEnd acc r) /\
     (isAfter (overlapEnd periodEnd r) (overlapStart periodStart r) = true ->
      0 < totalStayNights r ->
      snd (accumulate periodStart periodEnd acc r)
      = (snd acc + (Number (nightlySubtotal r) / ofZ (totalStayNights r))
                   * ofZ (overlapNights periodStart periodEnd r))%num)) /\
  (forall (num : Type) (N : JsNumber num) (r : Reservation num)
          (periodStart periodEnd : Date) (acc : Z * num),
     truthy (nightlySubtotal r) = true ->
     (forall gross,
        accumulate periodStart periodEnd acc (withTotalPrice gross r)
        = accumulate periodStart periodEnd acc r) /\
     (isAfter (overlapEnd periodEnd r) (overlapStart periodStart r) = true ->
      0 < totalStayNights r ->
      snd (accumulate periodStart periodEnd acc r)
      = (snd acc + (Number (nightlySubtotal r) / ofZ (totalStayNights r))
                   * ofZ (overlapNights periodStart periodEnd r))%num)) /\
  (forall (shape : PriceShape) (start finish periodStart periodEnd : Date)
          (gross : Price float),
     revenueInPeriod (withTotalPrice gross (bothPricesStay shape start finish))
       periodStart periodEnd
     = revenueInPeriod (bothPricesStay (num := float) shape start finish)
         periodStart periodEnd) /\
  (forall shape : PriceShape,
     revenueInPeriod (bothPricesStay (num := float) shape
                        (midnight 2025 1 15) (midnight 2025 1 17))
       (midnight 2025 1 1) (midnight 2025 2 1) = 100%float) /\
  (forall (num : Type) (N : JsNumber num) (r : Reservation num)
          (periodStart periodEnd : Date),
     nightlySubtotal r = PriceNull -> totalPrice r = PriceNull ->
     revenueInPeriod r periodStart periodEnd = ofZ 0).
Proof.
  assert (Htruthy :
            forall (num : Type) (N : JsNumber num) (r : Reservation num)
                   (ms me : Date) (acc : Z * num),
              truthy (nightlySubtotal r) = true ->
              (forall gross,
                 accumulate ms me acc (withTotalPrice gross r)
                 = accumulate ms me acc r) /\
              (isAfter (overlapEnd me r) (overlapStart ms r) = true ->
               0 < totalStayNights r ->
               snd (accumulate ms me acc r)
               = (snd acc
                  + (Number (nightlySubtotal r) / ofZ (totalStayNights r))
                    * ofZ (overlapNights ms me r))%num)).
  { intros num N r ms me acc Ht. split.
    - intros gross. now apply accumulate_ignores_gross.
    - intros Ho Hs. rewrite (accumulate_room ms me acc r Ho Ht).
      cbn [snd]. apply Z.ltb_lt in Hs. now rewrite Hs. }
  split; [| split; [| split; [| split]]].
  - intros num N r ms me acc Hq Hp. apply Htruthy.
    now apply asQueried_truthy.
  - exact Htruthy.
  - intros shape start finish ms me gross.
    rewrite !revenueInPeriod_accumulate.
    rewrite accumulate_ignores_gross; [reflexivity |].
    destruct shape; reflexivity.
  - intros [|]; vm_compute; reflexivity.
  - intros num N r ms me Hn Ht.
    rewrite revenueInPeriod_accumulate, accumulate_no_price.
    + reflexivity.
    + now rewrite Hn.
    + now rewrite Ht.
Qed.

(** The multi-month stay in June 2025, whose room revenue is a [Decimal]
    object, with and without a gross price. *)
Lemma revenue_field_precedence_witness :
  asQueried
    (nightlySubtotal (multiMonthStay (num := float) AsDecimal 2025 PriceNull))
  /\
  nightlySubtotal (multiMonthStay (num := float) AsDecimal 2025 PriceNull)
  <> PriceNull /\
  accumulate (midnight 2025 6 1) (midnight 2025 7 1) (0, 0%float)
    (withTotalPrice (PriceDecimal 2600%float)
       (multiMonthStay AsDecimal 2025 PriceNull))
  = accumulate (midnight 2025 6 1) (midnight 2025 7 1) (0, 0%float)
      (multiMonthStay AsDecimal 2025 PriceNull).
Proof.
  split; [exact I |]. split; [discriminate |].
  exact (proj1 (proj1 revenue_field_precedence float binary64
                  (multiMonthStay AsDecimal 2025 PriceNull)
                  (midnight 2025 6 1) (midnight 2025 7 1) (0, 0%float)
                  I ltac:(discriminate))
           (PriceDecimal 2600%float)).
Defined.

(** C10, as it is worded, fails on the rows the callers pass: the stay of
    Jan 31 - Feb 2, 2025 whose room revenue is the [Decimal] object 0 and
    whose gross price is the [Decimal] object 130 is allocated 0 over
    [Jan 1, Mar 1), from the room revenue, where the same stay with a [null]
    room revenue is allocated 130: the present 0 is not treated as absent. *)
Lemma zero_decimal_counterexample :
  nightlySubtotal (zeroSubtotalStay (num := float) AsDecimal)
  = PriceDecimal 0%float /\
  totalPrice (zeroSubtotalStay (num := float) AsDecimal)
  = PriceDecimal 130%float /\
  revenueInPeriod (zeroSubtotalStay (num := float) AsDecimal)
    (midnight 2025 1 1) (midnight 2025 3 1) = 0%float /\
  revenueInPeriod
    (withNightlySubtotal PriceNull (zeroSubtotalStay (num := float) AsDecimal))
    (midnight 2025 1 1) (midnight 2025 3 1) = 130%float.
Proof. repeat split; vm_compute; reflexivity. Qed.

(** C10, amended. What a room revenue that is present but exactly 0 does
    depends on its shape.  As a primitive number it fails the truthiness
    test of the revenue branch and is treated as absent: the loop iteration
    is that of the same reservation with a [null] room revenue, so with a
    truthy gross price the revenue of the period is prorated from the gross
    price (65 and 65 of 130 for the stay of Jan 31 - Feb 2, 2025 in January
    and February).  As a [Decimal] object, the shape in which the queries of
    the callers return it, it is truthy: the gross price is never read and
    the revenue is prorated from the room revenue, 0 for that stay, as
    strict field precedence gives. *)
Theorem zero_room_revenue_by_shape :
  (forall (num : Type) (N : JsNumber num) (r : Reservation num) (zero : num)
          (periodStart periodEnd : Date) (acc : Z * num),
     nightlySubtotal r = PriceNumber zero -> isZero zero = true ->
     accumulate periodStart periodEnd acc r
     = accumulate periodStart periodEnd acc (withNightlySubtotal PriceNull r)
     /\
     (truthy (totalPrice r) = true ->
      isAfter (overlapEnd periodEnd r) (overlapStart periodStart r) = true ->
      0 < totalStayNights r ->
      snd (accumulate periodStart periodEnd acc r)
      = (snd acc + (Number (totalPrice r) / ofZ (totalStayNights r))
                   * ofZ (overlapNights periodStart periodEnd r))%num)) /\
  (forall (num : Type) (N : JsNumber num) (r : Reservation num) (x : num)
          (periodStart periodEnd : Date) (acc : Z * num),
     nightlySubtotal r = PriceDecimal x ->
     (forall gross,
        accumulate periodStart periodEnd acc (withTotalPrice gross r)
        = accumulate periodStart periodEnd acc r) /\
     (isAfter (overlapEnd periodEnd r) (overlapStart periodStart r) = true ->
      0 < totalStayNights r ->
      snd (accumulate periodStart periodEnd acc r)
      = (snd acc + (x / ofZ (totalStayNights r))
                   * ofZ (overlapNights periodStart periodEnd r))%num)) /\
  isZero 0%float = true /\
  isZero (ofZ 0 : Qc) = true /\
  revenueInPeriod (zeroSubtotalStay (num := float) AsNumber)
    (midnight 2025 1 1) (midnight 2025 2 1) = 65%float /\
  revenueInPeriod (zeroSubtotalStay (num := float) AsNumber)
    (midnight 2025 2 1) (midnight 2025 3 1) = 65%float /\
  revenueInPeriod (zeroSubtotalStay (num := float) AsDecimal)
    (midnight 2025 1 1) (midnight 2025 2 1) = 0%float /\
  revenueInPeriod (zeroSubtotalStay (num := float) AsDecimal)
    (midnight 2025 2 1) (midnight 2025 3 1) = 0%float.
Proof.
  split; [| split; [| repeat split; vm_compute; reflexivity]].
  - intros num N r zero ms me acc Hns Hz.
    assert (Hf : truthy (nightlySubtotal r) = false)
      by (rewrite Hns; now apply truthy_zero).
    split.
    + now apply accumulate_falsy_room.
    + intros Ht Ho Hs. rewrite (accumulate_gross ms me acc r Ho Hf Ht).
      cbn [snd]. apply Z.ltb_lt in Hs. now rewrite Hs.
  - intros num N r x ms me acc Hns.
    assert (Ht : truthy (nightlySubtotal r) = true) by now rewrite Hns.
    split.
    + intros gross. now apply accumulate_ignores_gross.
    + intros Ho Hs. rewrite (accumulate_room ms me acc r Ho Ht).
      cbn [snd]. apply Z.ltb_lt in Hs. now rewrite Hs, Hns.
Qed.

(** The stay with room revenue 0 and gross price 130 as primitive numbers,
    in January 2025. *)
Lemma zero_room_revenue_by_shape_witness :
  nightlySubtotal (zeroSubtotalStay (num := float) AsNumber)
  = PriceNumber 0%float /\
  isZero 0%float = true /\
  accumulate (midnight 2025 1 1) (midnight 2025 2 1) (0, 0%float)
    (zeroSubtotalStay AsNumber)
  = accumulate (midnight 2025 1 1) (midnight 2025 2 1) (0, 0%float)
      (withNightlySubtotal PriceNull (zeroSubtotalStay AsNumber)).
Proof.
  split; [reflexivity |]. split; [reflexivity |].
  exact (proj1 (proj1 zero_room_revenue_by_shape float binary64
                  (zeroSubtotalStay AsNumber) 0%float
                  (midnight 2025 1 1) (midnight 2025 2 1) (0, 0%float)
                  eq_refl eq_refl)).
Defined.

(** ** Reservations and periods on whole calendar days *)

Lemma isAfter_midnights (a b : Z) :
  isAfter (a * MS_PER_DAY) (b * MS_PER_DAY) = (b <? a).
Proof.
  unfold isAfter, MS_PER_DAY.
  destruct (Z.ltb_spec (b * 86400000) (a * 86400000)), (Z.ltb_spec b a);
    (reflexivity || lia).
Qed.

Lemma isBefore_midnights (a b : Z) :
  isBefore (a * MS_PER_DAY) (b * MS_PER_DAY) = (a <? b).
Proof. apply isAfter_midnights. Qed.

Section WholeDays.

Context {num : Type} {N : JsNumber num}.

Variables (r : Reservation num) (s e a b : Z).

Hypothesis Hstart : startDate r = s * MS_PER_DAY.
Hypothesis Hend : endDate r = e * MS_PER_DAY.

Lemma overlapStart_midnights :
  overlapStart (a * MS_PER_DAY) r = Z.max s a * MS_PER_DAY.
Proof.
  unfold overlapStart. rewrite Hstart, isAfter_midnights.
  destruct (Z.ltb_spec a s); f_equal; lia.
Qed.

Lemma overlapEnd_midnights :
  overlapEnd (b * MS_PER_DAY) r = Z.min e b * MS_PER_DAY.
Proof.
  unfold overlapEnd. rewrite Hend, isBefore_midnights.
  destruct (Z.ltb_spec e b); f_equal; lia.
Qed.

Lemma overlap_test_midnights :
  isAfter (overlapEnd (b * MS_PER_DAY) r) (overlapStart (a * MS_PER_DAY) r)
  = (Z.max s a <? Z.min e b).
Proof.
  now rewrite overlapStart_midnights, overlapEnd_midnights, isAfter_midnights.
Qed.

Lemma overlapNights_midnights :
  overlapNights (a * MS_PER_DAY) (b * MS_PER_DAY) r
  = Z.max 0 (Z.min e b - Z.max s a).
Proof.
  unfold overlapNights. rewrite overlap_test_midnights.
  rewrite overlapStart_midnights, overlapEnd_midnights,
    differenceInDays_midnights.
  destruct (Z.ltb_spec (Z.max s a) (Z.min e b)); lia.
Qed.

Lemma totalStayNights_midnights : totalStayNights r = e - s.
Proof.
  unfold totalStayNights. rewrite Hstart, Hend.
  apply differenceInDays_midnights.
Qed.

(** The allocation of a stay with a truthy room revenue that overlaps the
    period. *)
Lemma allocation_room_midnights :
  Z.max s a < Z.min e b ->
  truthy (nightlySubtotal r) = true ->
  nightsInPeriod r (a * MS_PER_DAY) (b * MS_PER_DAY)
  = Z.min e b - Z.max s a /\
  revenueInPeriod r (a * MS_PER_DAY) (b * MS_PER_DAY)
  = (ofZ 0 + (Number (nightlySubtotal r) / ofZ (e - s))
             * ofZ (Z.min e b - Z.max s a))%num.
Proof.
  intros Ho Ht.
  assert (Hn : overlapNights (a * MS_PER_DAY) (b * MS_PER_DAY) r
               = Z.min e b - Z.max s a)
    by (rewrite overlapNights_midnights; lia).
  split.
  - now rewrite nightsInPeriod_overlap.
  - rewrite revenueInPeriod_accumulate, accumulate_room; trivial.
    + cbn [snd]. rewrite Hn, totalStayNights_midnights.
      assert (Hs : (0 <? e - s) = true) by (apply Z.ltb_lt; lia).
      now rewrite Hs.
    + rewrite overlap_test_midnights. apply Z.ltb_lt. exact Ho.
Qed.

End WholeDays.

(** Civil dates of one year, as offsets from a March 1st. *)
Ltac civil :=
  unfold daysFromCivil;
  cbn [Z.eqb Z.leb Z.compare Pos.compare Pos.compare_cont Pos.eqb];
  repeat match goal with
  | |- context [(153 * (?k mod 12) + 2) / 5] =>
      let v := eval vm_compute in ((153 * (k mod 12) + 2) / 5) in
      change ((153 * (k mod 12) + 2) / 5) with v
  end.

(** ** The two worked examples *)

(** C4. The stay of Jan 15 - Feb 15 (31 nights) with room revenue 3100,
    allocated to the January period [Jan 1, Feb 1) of its year, yields
    exactly 17 nights and revenue 1700, in binary64 as in exact arithmetic,
    whatever the year and the gross price. *)
Theorem full_containment_example :
  (forall (shape : PriceShape) (y : Z) (gross : Price float),
     totalStayNights (fullContainmentStay shape y gross) = 31 /\
     nightsInPeriod (fullContainmentStay shape y gross)
       (midnight y 1 1) (midnight y 2 1) = 17 /\
     revenueInPeriod (fullContainmentStay shape y gross)
       (midnight y 1 1) (midnight y 2 1) = 1700%float) /\
  (forall (shape : PriceShape) (y : Z) (gross : Price Qc),
     totalStayNights (fullContainmentStay shape y gross) = 31 /\
     nightsInPeriod (fullContainmentStay shape y gross)
       (midnight y 1 1) (midnight y 2 1) = 17 /\
     revenueInPeriod (fullContainmentStay shape y gross)
       (midnight y 1 1) (midnight y 2 1) = ofZ 1700).
Proof.
  assert (Hstay : forall y,
            daysFromCivil y 2 15 - daysFromCivil y 1 15 = 31)
    by (intros y; civil; lia).
  assert (Hin : forall y,
            Z.min (daysFromCivil y 2 15) (daysFromCivil y 2 1)
            - Z.max (daysFromCivil y 1 15) (daysFromCivil y 1 1) = 17)
    by (intros y; civil; lia).
  split; intros shape y gross.
  - destruct (allocation_room_midnights (fullContainmentStay shape y gross)
                (daysFromCivil y 1 15) (daysFromCivil y 2 15)
                (daysFromCivil y 1 1) (daysFromCivil y 2 1)
                eq_refl eq_refl) as [Hn Hr];
      [specialize (Hin y); lia | destruct shape; reflexivity |].
    fold (midnight y 1 1) (midnight y 2 1) in Hn, Hr.
    rewrite (totalStayNights_midnights (fullContainmentStay shape y gross)
               (daysFromCivil y 1 15) (daysFromCivil y 2 15) eq_refl eq_refl).
    rewrite Hn, Hr, Hin, Hstay. destruct shape; repeat split.
  - destruct (allocation_room_midnights (fullContainmentStay shape y gross)
                (daysFromCivil y 1 15) (daysFromCivil y 2 15)
                (daysFromCivil y 1 1) (daysFromCivil y 2 1)
                eq_refl eq_refl) as [Hn Hr];
      [specialize (Hin y); lia | destruct shape; reflexivity |].
    fold (midnight y 1 1) (midnight y 2 1) in Hn, Hr.
    rewrite (totalStayNights_midnights (fullContainmentStay shape y gross)
               (daysFromCivil y 1 15) (daysFromCivil y 2 15) eq_refl eq_refl).
    rewrite Hn, Hr, Hin, Hstay. destruct shape; repeat split.
Qed.

(** C2, as the specification words it, fails: the stay of May 20 - Jul 10
    has 51 nights, not 50, and 12 of them in May, not 11, so the June share
    of a room revenue of 2000 is 2000 / 51 * 30 (about 1176.47), not 1200.
    Shown for 2025, over the half-open months and, for June, over the period
    the callers pass, from [startOfMonth] to [endOfMonth] (29 nights). *)
Lemma multi_month_counterexample :
  totalStayNights (multiMonthStay (num := float) AsDecimal 2025 PriceNull) = 51 /\
  nightsInPeriod (multiMonthStay (num := float) AsDecimal 2025 PriceNull)
    (midnight 2025 5 1) (midnight 2025 6 1) = 12 /\
  revenueInPeriod (multiMonthStay (num := float) AsDecimal 2025 PriceNull)
    (midnight 2025 6 1) (midnight 2025 7 1) = 0x1.261e1e1e1e1e2p+10%float /\
  PrimFloat.eqb
    (revenueInPeriod (multiMonthStay (num := float) AsDecimal 2025 PriceNull)
       (midnight 2025 6 1) (midnight 2025 7 1)) 1200%float = false /\
  nightsInPeriod (multiMonthStay (num := float) AsDecimal 2025 PriceNull)
    (startOfMonth 2025 6) (endOfMonth 2025 6) = 29 /\
  PrimFloat.eqb
    (revenueInPeriod (multiMonthStay (num := float) AsDecimal 2025 PriceNull)
       (startOfMonth 2025 6) (endOfMonth 2025 6)) 1200%float = false.
Proof. repeat split; vm_compute; reflexivity. Qed.

(** C2, amended. The stay of May 20 - Jul 10 with room revenue 2000 has 51
    nights: 12 in May, 30 in June and 9 in July (half-open months of its
    year).  Its June allocation is 2000 / 51 * 30, about 1176.47 in binary64
    and 2000 * 30 / 51 in exact arithmetic, not the full 2000. *)
Theorem multi_month_example :
  (forall (shape : PriceShape) (y : Z) (gross : Price float),
     totalStayNights (multiMonthStay shape y gross) = 51 /\
     nightsInPeriod (multiMonthStay shape y gross)
       (midnight y 5 1) (midnight y 6 1) = 12 /\
     nightsInPeriod (multiMonthStay shape y gross)
       (midnight y 6 1) (midnight y 7 1) = 30 /\
     nightsInPeriod (multiMonthStay shape y gross)
       (midnight y 7 1) (midnight y 8 1) = 9 /\
     revenueInPeriod (multiMonthStay shape y gross)
       (midnight y 6 1) (midnight y 7 1) = 0x1.261e1e1e1e1e2p+10%float) /\
  (forall (shape : PriceShape) (y : Z) (gross : Price Qc),
     totalStayNights (multiMonthStay shape y gross) = 51 /\
     nightsInPeriod (multiMonthStay shape y gross)
       (midnight y 5 1) (midnight y 6 1) = 12 /\
     nightsInPeriod (multiMonthStay shape y gross)
       (midnight y 6 1) (midnight y 7 1) = 30 /\
     nightsInPeriod (multiMonthStay shape y gross)
       (midnight y 7 1) (midnight y 8 1) = 9 /\
     revenueInPeriod (multiMonthStay shape y gross)
       (midnight y 6 1) (midnight y 7 1)
     = (ofZ 2000 * ofZ 30 / ofZ 51)%num).
Proof.
  assert (Hstay : forall y,
            daysFromCivil y 7 10 - daysFromCivil y 5 20 = 51)
    by (intros y; civil; lia).
  assert (Hmay : forall y,
            Z.max 0 (Z.min (daysFromCivil y 7 10) (daysFromCivil y 6 1)
                     - Z.max (daysFromCivil y 5 20) (daysFromCivil y 5 1))
            = 12)
    by (intros y; civil; lia).
  assert (Hjun : forall y,
            Z.min (daysFromCivil y 7 10) (daysFromCivil y 7 1)
            - Z.max (daysFromCivil y 5 20) (daysFromCivil y 6 1) = 30)
    by (intros y; civil; lia).
  assert (Hjul : forall y,
            Z.max 0 (Z.min (daysFromCivil y 7 10) (daysFromCivil y 8 1)
                     - Z.max (daysFromCivil y 5 20) (daysFromCivil y 7 1))
            = 9)
    by (intros y; civil; lia).
  assert (Hnights : forall (num : Type) (N : JsNumber num) shape y gross,
            totalStayNights (multiMonthStay (num := num) shape y gross) = 51 /\
            nightsInPeriod (multiMonthStay (num := num) shape y gross)
              (midnight y 5 1) (midnight y 6 1) = 12 /\
            nightsInPeriod (multiMonthStay (num := num) shape y gross)
              (midnight y 7 1) (midnight y 8 1) = 9).
  { intros num N shape y gross.
    rewrite (totalStayNights_midnights (multiMonthStay shape y gross)
               (daysFromCivil y 5 20) (daysFromCivil y 7 10) eq_refl eq_refl).
    rewrite !nightsInPeriod_overlap. unfold midnight at 1 2 3 4.
    rewrite !(overlapNights_midnights (multiMonthStay shape y gross)
                (daysFromCivil y 5 20) (daysFromCivil y 7 10))
      by reflexivity.
    now rewrite Hstay, Hmay, Hjul. }
  split; intros shape y gross.
  - destruct (Hnights float binary64 shape y gross) as [Hs [Hm Hj]].
    destruct (allocation_room_midnights (multiMonthStay shape y gross)
                (daysFromCivil y 5 20) (daysFromCivil y 7 10)
                (daysFromCivil y 6 1) (daysFromCivil y 7 1)
                eq_refl eq_refl) as [Hn Hr];
      [specialize (Hjun y); lia | destruct shape; reflexivity |].
    fold (midnight y 6 1) (midnight y 7 1) in Hn, Hr.
    rewrite Hs, Hm, Hj, Hn, Hr, Hjun, Hstay. destruct shape; repeat split.
  - destruct (Hnights Qc exact shape y gross) as [Hs [Hm Hj]].
    destruct (allocation_room_midnights (multiMonthStay shape y gross)
                (daysFromCivil y 5 20) (daysFromCivil y 7 10)
                (daysFromCivil y 6 1) (daysFromCivil y 7 1)
                eq_refl eq_refl) as [Hn Hr];
      [specialize (Hjun y); lia | destruct shape; reflexivity |].
    fold (midnight y 6 1) (midnight y 7 1) in Hn, Hr.
    rewrite Hs, Hm, Hj, Hn, Hr, Hjun, Hstay.
    destruct shape; repeat split; apply Qc_is_canon; reflexivity.
Qed.

(** ** The engine in exact arithmetic *)

Section ExactFacts.

Implicit Types (r : Reservation Qc) (acc : Z * Qc).

Local Open Scope Qc_scope.

Lemma ofZ_exact_zero : (ofZ 0 : Qc) = 0.
Proof. reflexivity. Qed.

Lemma ofZ_exact_add (a b : Z) : (ofZ (a + b) : Qc) = ofZ a + ofZ b.
Proof.
  apply Qc_is_canon. cbn [ofZ exact Qcplus this Q2Qc].
  rewrite !Qred_correct, inject_Z_plus. reflexivity.
Qed.

Lemma ofZ_exact_nonzero (z : Z) : z <> 0%Z -> (ofZ z : Qc) <> 0.
Proof.
  intros Hz H. apply (f_equal this) in H.
  cbn [ofZ exact this Q2Qc] in H.
  assert (Hq : inject_Z z == 0%Q).
  { rewrite <- (Qred_correct (inject_Z z)), H. reflexivity. }
  unfold Qeq, inject_Z in Hq. cbn in Hq. lia.
Qed.

(** One iteration adds the nightly rate times the nights in the month. *)
Lemma accumulate_exact ms me acc r :
  accumulate ms me acc r
  = ((fst acc + overlapNights ms me r)%Z,
     snd acc + nightlyRate r * ofZ (overlapNights ms me r)).
Proof.
  unfold nightlyRate, authoritativePrice.
  destruct (isAfter (overlapEnd me r) (overlapStart ms r)) eqn:Ho.
  - destruct (truthy (nightlySubtotal r)) eqn:Hn.
    + rewrite (accumulate_room ms me acc r Ho Hn). reflexivity.
    + destruct (truthy (totalPrice r)) eqn:Ht.
      * rewrite (accumulate_gross ms me acc r Ho Hn Ht). f_equal.
        destruct (0 <? totalStayNights r)%Z;
          cbn [nadd nmul ndiv ofZ exact]; [reflexivity |].
        change (Q2Qc (inject_Z 0)) with 0. ring.
      * rewrite (accumulate_no_price ms me acc r Hn Ht). f_equal.
        destruct (0 <? totalStayNights r)%Z; cbn [nadd nmul ndiv ofZ exact];
          change (Q2Qc (inject_Z 0)) with 0; unfold Qcdiv; ring.
  - rewrite (accumulate_no_overlap ms me acc r Ho).
    unfold overlapNights. rewrite Ho.
    destruct acc as [n v]. cbn [fst snd]. f_equal; [lia |].
    cbn [nadd nmul ndiv ofZ exact].
    change (Q2Qc (inject_Z 0)) with 0. ring.
Qed.

Lemma accumulate_exact_comm ms me acc r1 r2 :
  accumulate ms me (accumulate ms me acc r1) r2
  = accumulate ms me (accumulate ms me acc r2) r1.
Proof.
  rewrite !accumulate_exact. cbn [fst snd]. f_equal; [lia | ring].
Qed.

Lemma revenueInPeriod_exact r ms me :
  revenueInPeriod r ms me = nightlyRate r * ofZ (overlapNights ms me r).
Proof.
  rewrite revenueInPeriod_accumulate, accumulate_exact. cbn [snd].
  rewrite ofZ_exact_zero. ring.
Qed.

Lemma nightlyRate_total r :
  (0 < totalStayNights r)%Z ->
  nightlyRate r * ofZ (totalStayNights r) = authoritativePrice r.
Proof.
  intros Hs. unfold nightlyRate.
  apply Z.ltb_lt in Hs as Hb. rewrite Hb.
  cbn [ndiv exact]. field. apply ofZ_exact_nonzero. lia.
Qed.

Lemma sum_revenue_periods r (ps : list (Date * Date)) :
  sumNum (map (fun p => revenueInPeriod r (fst p) (snd p)) ps)
  = nightlyRate r
    * ofZ (sumZ (map (fun p => overlapNights (fst p) (snd p) r) ps)).
Proof.
  induction ps as [| p ps IH]; cbn [map sumNum sumZ fold_right].
  - rewrite ofZ_exact_zero. ring.
  - fold (sumNum (map (fun p => revenueInPeriod r (fst p) (snd p)) ps)).
    fold (sumZ (map (fun p => overlapNights (fst p) (snd p) r) ps)).
    rewrite IH, revenueInPeriod_exact, ofZ_exact_add.
    cbn [nadd exact]. ring.
Qed.

End ExactFacts.

(** The fold of a commuting step does not depend on the order of the list. *)
Lemma fold_left_permutation {A B : Type} (f : A -> B -> A) :
  (forall a x y, f (f a x) y = f (f a y) x) ->
  forall l l', Permutation l l' ->
  forall a, fold_left f l a = fold_left f l' a.
Proof.
  intros Hf l l' Hp.
  induction Hp as [| x l l' _ IH | x y l | l l' l'' _ IH1 _ IH2];
    intros a; cbn [fold_left].
  - reflexivity.
  - apply IH.
  - now rewrite Hf.
  - now rewrite IH1.
Qed.

Lemma sumZ_permutation (xs ys : list Z) :
  Permutation xs ys -> sumZ xs = sumZ ys.
Proof.
  unfold sumZ. induction 1; cbn [fold_right]; lia.
Qed.

(** ** Order of the reservations *)

(** C9, as the specification words it, fails on the program's numbers: three
    one-night stays of June 2025 with room revenues 0.1, 0.2 and 0.3, summed
    in that order and in the reverse order over the period the callers pass,
    give the total revenues 0.6000000000000001 and 0.6. *)
Lemma order_independence_counterexample :
  Permutation
    [oneNight 3 js_0_1; oneNight 4 js_0_2; oneNight 5 js_0_3]
    [oneNight 5 js_0_3; oneNight 4 js_0_2; oneNight 3 js_0_1] /\
  totalRevenue
    (calculateMonthMetrics
       [oneNight 3 js_0_1; oneNight 4 js_0_2; oneNight 5 js_0_3]
       (startOfMonth 2025 6) (endOfMonth 2025 6) 1)
  = 0x1.3333333333334p-1%float /\
  totalRevenue
    (calculateMonthMetrics
       [oneNight 5 js_0_3; oneNight 4 js_0_2; oneNight 3 js_0_1]
       (startOfMonth 2025 6) (endOfMonth 2025 6) 1)
  = 0x1.3333333333333p-1%float /\
  PrimFloat.eqb 0x1.3333333333334p-1%float 0x1.3333333333333p-1%float = false.
Proof.
  split; [| repeat split; vm_compute; reflexivity].
  apply Permutation_rev
    with (l := [oneNight 3 js_0_1; oneNight 4 js_0_2; oneNight 5 js_0_3]).
Qed.

(** C9, amended. Aggregating a permutation of the reservation list yields
    the same total nights, available nights and occupancy; total revenue,
    ADR and RevPAR are the same in exact arithmetic, where the whole
    [MonthMetrics] output is order-independent, and so agree on the
    program's binary64 numbers up to the rounding of the revenue sum. *)
Theorem order_independence :
  (forall (num : Type) (N : JsNumber num) (rs rs' : list (Reservation num))
          (monthStart monthEnd : Date) (propertyCount : Z),
     Permutation rs rs' ->
     totalNights (calculateMonthMetrics rs monthStart monthEnd propertyCount)
     = totalNights
         (calculateMonthMetrics rs' monthStart monthEnd propertyCount) /\
     totalAvailableNights
       (calculateMonthMetrics rs monthStart monthEnd propertyCount)
     = totalAvailableNights
         (calculateMonthMetrics rs' monthStart monthEnd propertyCount) /\
     occupancy (calculateMonthMetrics rs monthStart monthEnd propertyCount)
     = occupancy
         (calculateMonthMetrics rs' monthStart monthEnd propertyCount)) /\
  (forall (rs rs' : list (Reservation Qc))
          (monthStart monthEnd : Date) (propertyCount : Z),
     Permutation rs rs' ->
     calculateMonthMetrics rs monthStart monthEnd propertyCount
     = calculateMonthMetrics rs' monthStart monthEnd propertyCount).
Proof.
  split.
  - intros num N rs rs' ms me pc Hp.
    assert (Hn : totalNights (calculateMonthMetrics rs ms me pc)
                 = totalNights (calculateMonthMetrics rs' ms me pc)).
    { rewrite !totalNights_sum. apply sumZ_permutation.
      now apply Permutation_map. }
    split; [exact Hn |]. split; [reflexivity |].
    unfold calculateMonthMetrics in *.
    cbn [occupancy totalNights] in *. now rewrite Hn.
  - intros rs rs' ms me pc Hp. unfold calculateMonthMetrics.
    now rewrite (fold_left_permutation (accumulate ms me)
                   (accumulate_exact_comm ms me) rs rs' Hp).
Qed.

(** The three one-night stays, in both orders. *)
Lemma order_independence_witness :
  Permutation
    [oneNight 3 js_0_1; oneNight 4 js_0_2; oneNight 5 js_0_3]
    [oneNight 5 js_0_3; oneNight 4 js_0_2; oneNight 3 js_0_1] /\
  occupancy
    (calculateMonthMetrics
       [oneNight 3 js_0_1; oneNight 4 js_0_2; oneNight 5 js_0_3]
       (startOfMonth 2025 6) (endOfMonth 2025 6) 1)
  = occupancy
      (calculateMonthMetrics
         [oneNight 5 js_0_3; oneNight 4 js_0_2; oneNight 3 js_0_1]
         (startOfMonth 2025 6) (endOfMonth 2025 6) 1).
Proof.
  assert (Hp : Permutation
                 [oneNight 3 js_0_1; oneNight 4 js_0_2; oneNight 5 js_0_3]
                 [oneNight 5 js_0_3; oneNight 4 js_0_2; oneNight 3 js_0_1])
    by apply (Permutation_rev
                [oneNight 3 js_0_1; oneNight 4 js_0_2; oneNight 5 js_0_3]).
  split; [exact Hp |].
  exact (proj2 (proj2 (proj1 order_independence float binary64 _ _
                         (startOfMonth 2025 6) (endOfMonth 2025 6) 1 Hp))).
Defined.

(** ** Conservation across adjacent periods *)

Lemma last_cons_default (b0 b1 : Date) (bs : list Date) :
  last (b1 :: bs) b0 = last bs b1.
Proof.
  revert b0 b1. induction bs as [| b2 bs IH]; intros b0 b1; [reflexivity |].
  change (last (b1 :: b2 :: bs) b0) with (last (b2 :: bs) b0).
  now rewrite (IH b0 b2), (IH b1 b2).
Qed.

Lemma ascending_last (b0 : Date) (bs : list Date) :
  ascending b0 bs -> b0 <= last bs b0.
Proof.
  revert b0. induction bs as [| b1 bs IH]; intros b0 H.
  - cbn [last]. lia.
  - destruct H as [H01 H]. rewrite last_cons_default.
    specialize (IH b1 H). lia.
Qed.

(** The nights of a stay on whole days, over a chain of adjacent periods cut
    at midnights, add up to the nights it has between the two ends of the
    chain. *)
Lemma nights_chain {num : Type} {N : JsNumber num} (r : Reservation num)
  (s e : Z) :
  startDate r = s * MS_PER_DAY -> endDate r = e * MS_PER_DAY ->
  forall (bs : list Date) (b0 : Date),
    isMidnight b0 -> Forall isMidnight bs -> ascending b0 bs ->
    sumZ (map (fun p => overlapNights (fst p) (snd p) r) (periods b0 bs))
    = Z.max 0 (Z.min e (last bs b0 / MS_PER_DAY)
               - Z.max s (b0 / MS_PER_DAY)).
Proof.
  intros Hs He. induction bs as [| b1 bs IH]; intros b0 H0 Hbs Hasc.
  - cbn [periods map sumZ fold_right last]. lia.
  - inversion Hbs as [| ? ? H1 Hbs']; subst.
    destruct Hasc as [H01 Hasc].
    cbn [periods map sumZ fold_right fst snd].
    fold (sumZ (map (fun p => overlapNights (fst p) (snd p) r)
                  (periods b1 bs))).
    rewrite (IH b1 H1 Hbs' Hasc), last_cons_default.
    pose proof (ascending_last b1 bs Hasc) as Hl.
    assert (Hd01 : b0 / MS_PER_DAY <= b1 / MS_PER_DAY)
      by (apply Z.div_le_mono; [reflexivity | exact H01]).
    assert (Hd1l : b1 / MS_PER_DAY <= last bs b1 / MS_PER_DAY)
      by (apply Z.div_le_mono; [reflexivity | exact Hl]).
    rewrite (isMidnight_day b0 H0) at 1.
    rewrite (isMidnight_day b1 H1) at 1.
    rewrite (overlapNights_midnights r s e _ _ Hs He).
    lia.
Qed.

(** Decides [splitAcross] on closed dates by evaluation. *)
Ltac closed_split :=
  unfold splitAcross; cbn [ascending];
  repeat match goal with |- _ /\ _ => split end;
  try exact I;
  try (repeat (apply Forall_cons; [vm_compute; reflexivity |]);
       apply Forall_nil);
  try (vm_compute; congruence).

(** The price the loop prorates is the authoritative price of the
    specification whenever a present room revenue passes the truthiness
    test; in exact arithmetic a falsy gross price is 0 either way. *)
Lemma authoritativePrice_spec (r : Reservation Qc) :
  nullOrTruthy (nightlySubtotal r) ->
  authoritativePrice r = specAuthoritativePrice r.
Proof.
  unfold nullOrTruthy, authoritativePrice, specAuthoritativePrice.
  intros [Hn | Ht].
  - rewrite Hn. cbn [truthy].
    destruct (totalPrice r) as [| x | x]; cbn [truthy Number];
      [reflexivity | | reflexivity].
    cbn [isZero isNaN exact negb andb]. rewrite andb_true_r.
    destruct (Qc_eq_bool x (Q2Qc 0)) eqn:Hz; cbn [negb]; [| reflexivity].
    apply Qc_eq_bool_correct in Hz. now rewrite Hz.
  - rewrite Ht. destruct (nightlySubtotal r); [discriminate | |]; reflexivity.
Qed.

(** C1, as the specification words it, fails when the dates carry a time of
    day: the stay from noon of Jan 31 to noon of Feb 2, 2025 (a valid
    half-open range of 2 nights, room revenue 200), split across the
    adjacent periods of January and February that cover it, has no full day
    in January and one in February: its nights add up to 1 and its revenue
    to 100, in binary64 and in exact arithmetic. *)
Lemma conservation_counterexample :
  startDate (noonStay (num := float)) < endDate (noonStay (num := float)) /\
  ascending (midnight 2025 1 1) [midnight 2025 2 1; midnight 2025 3 1] /\
  midnight 2025 1 1 <= startDate (noonStay (num := float)) /\
  endDate (noonStay (num := float)) <= midnight 2025 3 1 /\
  totalStayNights (noonStay (num := float)) = 2 /\
  sumZ
    (map (fun p => nightsInPeriod (noonStay (num := float)) (fst p) (snd p))
       (periods (midnight 2025 1 1) [midnight 2025 2 1; midnight 2025 3 1]))
  = 1 /\
  specAuthoritativePrice (noonStay (num := float)) = 200%float /\
  sumNum
    (map (fun p => revenueInPeriod (noonStay (num := float)) (fst p) (snd p))
       (periods (midnight 2025 1 1) [midnight 2025 2 1; midnight 2025 3 1]))
  = 100%float /\
  specAuthoritativePrice (noonStay (num := Qc)) = ofZ 200 /\
  sumNum
    (map (fun p => revenueInPeriod (noonStay (num := Qc)) (fst p) (snd p))
       (periods (midnight 2025 1 1) [midnight 2025 2 1; midnight 2025 3 1]))
  = ofZ 100.
Proof.
  cbn [ascending].
  repeat match goal with |- _ /\ _ => split end; try exact I;
    try (vm_compute; congruence).
Qed.

(** C1, amended. For every reservation with a valid half-open date range on
    whole calendar days (dates at midnight), split across adjacent periods
    cut at midnights that together cover the stay, the nights in the periods
    add up to the total stay nights, and, in exact arithmetic (on the
    program's binary64 numbers: up to rounding), the revenues in the periods
    add up to its authoritative total price, the room revenue if present,
    else the gross price, for a room revenue that is [null] or passes the
    truthiness test, as every [Decimal] object that the queries return does.
    For the stay of May 20 - Jul 10, 2025 with room revenue 2000 the
    binary64 revenues of May, June and July add up to 2000 without rounding
    error. *)
Theorem conservation_law :
  (forall (num : Type) (N : JsNumber num) (r : Reservation num)
          (b0 : Date) (bs : list Date),
     splitAcross r b0 bs ->
     sumZ (map (fun p => nightsInPeriod r (fst p) (snd p)) (periods b0 bs))
     = totalStayNights r) /\
  (forall (r : Reservation Qc) (b0 : Date) (bs : list Date),
     splitAcross r b0 bs ->
     nullOrTruthy (nightlySubtotal r) ->
     sumNum (map (fun p => revenueInPeriod r (fst p) (snd p)) (periods b0 bs))
     = specAuthoritativePrice r) /\
  (forall v : Price Qc, asQueried v -> nullOrTruthy v) /\
  sumNum
    (map (fun p => revenueInPeriod
                     (multiMonthStay (num := float) AsDecimal 2025 PriceNull)
                     (fst p) (snd p))
       (periods (midnight 2025 5 1)
          [midnight 2025 6 1; midnight 2025 7 1; midnight 2025 8 1]))
  = 2000%float.
Proof.
  assert (Hnights :
            forall (num : Type) (N : JsNumber num) (r : Reservation num)
                   (b0 : Date) (bs : list Date),
              splitAcross r b0 bs ->
              sumZ (map (fun p => overlapNights (fst p) (snd p) r)
                      (periods b0 bs))
              = totalStayNights r /\ 0 < totalStayNights r).
  { intros num N r b0 bs (Hlt & Hs & He & H0 & Hbs & Hasc & Hlo & Hhi).
    pose proof (isMidnight_day _ Hs) as Es.
    pose proof (isMidnight_day _ He) as Ee.
    rewrite (nights_chain r _ _ Es Ee bs b0 H0 Hbs Hasc).
    rewrite (totalStayNights_midnights r _ _ Es Ee).
    assert (startDate r / MS_PER_DAY < endDate r / MS_PER_DAY)
      by (unfold MS_PER_DAY in *; lia).
    assert (b0 / MS_PER_DAY <= startDate r / MS_PER_DAY)
      by (apply Z.div_le_mono; [reflexivity | exact Hlo]).
    assert (endDate r / MS_PER_DAY <= last bs b0 / MS_PER_DAY)
      by (apply Z.div_le_mono; [reflexivity | exact Hhi]).
    lia. }
  split; [| split; [| split]].
  - intros num N r b0 bs H.
    destruct (Hnights num N r b0 bs H) as [<- _].
    f_equal. apply map_ext. intros p. apply nightsInPeriod_overlap.
  - intros r b0 bs H Hprice.
    destruct (Hnights Qc exact r b0 bs H) as [Hsum Hpos].
    rewrite sum_revenue_periods, Hsum, <- (authoritativePrice_spec r Hprice).
    now apply nightlyRate_total.
  - intros [| x | x] Hq; [left; reflexivity | contradiction |
                           right; reflexivity].
  - vm_compute. reflexivity.
Qed.

(** The multi-month stay of 2025, its room revenue a [Decimal] object,
    across May, June and July. *)
Lemma conservation_law_witness :
  splitAcross (multiMonthStay (num := Qc) AsDecimal 2025 PriceNull)
    (midnight 2025 5 1)
    [midnight 2025 6 1; midnight 2025 7 1; midnight 2025 8 1] /\
  nullOrTruthy
    (nightlySubtotal (multiMonthStay (num := Qc) AsDecimal 2025 PriceNull)) /\
  sumNum
    (map (fun p => revenueInPeriod
                     (multiMonthStay (num := Qc) AsDecimal 2025 PriceNull)
                     (fst p) (snd p))
       (periods (midnight 2025 5 1)
          [midnight 2025 6 1; midnight 2025 7 1; midnight 2025 8 1]))
  = ofZ 2000.
Proof.
  assert (H : splitAcross (multiMonthStay (num := Qc) AsDecimal 2025 PriceNull)
                (midnight 2025 5 1)
                [midnight 2025 6 1; midnight 2025 7 1; midnight 2025 8 1]).
  { closed_split. }
  assert (Hp : nullOrTruthy
                 (nightlySubtotal
                    (multiMonthStay (num := Qc) AsDecimal 2025 PriceNull)))
    by (right; reflexivity).
  split; [exact H |]. split; [exact Hp |].
  exact (proj1 (proj2 conservation_law)
           (multiMonthStay AsDecimal 2025 PriceNull)
           (midnight 2025 5 1)
           [midnight 2025 6 1; midnight 2025 7 1; midnight 2025 8 1] H Hp).
Defined.

(** * Beyond the claims: the engine *)

(** ** Bounds on the nights of one reservation *)

Section NightBounds.

Context {num : Type} {N : JsNumber num}.

Implicit Types (r : Reservation num).

Lemma overlapStart_max ms r : overlapStart ms r = Z.max (startDate r) ms.
Proof.
  unfold overlapStart, isAfter.
  destruct (Z.ltb_spec ms (startDate r)); lia.
Qed.

Lemma overlapEnd_min me r : overlapEnd me r = Z.min (endDate r) me.
Proof.
  unfold overlapEnd, isBefore.
  destruct (Z.ltb_spec (endDate r) me); lia.
Qed.

(** The nights in the period are the full days of the clamped overlap. *)
Lemma overlapNights_div ms me r :
  overlapNights ms me r
  = Z.max 0 (Z.min (endDate r) me - Z.max (startDate r) ms) / MS_PER_DAY.
Proof.
  unfold overlapNights, isAfter.
  rewrite overlapStart_max, overlapEnd_min, differenceInDays_quot.
  destruct (Z.ltb_spec (Z.max (startDate r) ms) (Z.min (endDate r) me)).
  - rewrite Z.quot_div_nonneg by (unfold MS_PER_DAY; lia).
    f_equal. lia.
  - rewrite Z.max_l by lia. reflexivity.
Qed.

End NightBounds.

(** X1. A reservation is never allocated a negative number of nights, never
    more nights than its stay has (when it does not end before it starts),
    and never more than the full days of the period (when the period does
    not end before it starts). *)
Theorem nights_in_period_bounds {num : Type} {N : JsNumber num}
  (r : Reservation num) (periodStart periodEnd : Date) :
  0 <= nightsInPeriod r periodStart periodEnd /\
  (startDate r <= endDate r ->
   nightsInPeriod r periodStart periodEnd <= totalStayNights r) /\
  (periodStart <= periodEnd ->
   nightsInPeriod r periodStart periodEnd
   <= differenceInDays periodEnd periodStart).
Proof.
  rewrite nightsInPeriod_overlap. split; [apply overlapNights_nonneg |].
  unfold totalStayNights. rewrite overlapNights_div, !differenceInDays_quot.
  split; intros H;
    rewrite Z.quot_div_nonneg by (unfold MS_PER_DAY; lia);
    apply Z.div_le_mono; (reflexivity || lia).
Qed.

(** The noon-to-noon stay of Jan 31 - Feb 2, 2025 in January. *)
Lemma nights_in_period_bounds_witness :
  startDate (noonStay (num := float)) <= endDate (noonStay (num := float)) /\
  nightsInPeriod (noonStay (num := float))
    (midnight 2025 1 1) (midnight 2025 2 1)
  <= totalStayNights (noonStay (num := float)).
Proof.
  split; [vm_compute; congruence |].
  exact (proj1 (proj2 (nights_in_period_bounds (noonStay (num := float))
                         (midnight 2025 1 1) (midnight 2025 2 1)))
           ltac:(vm_compute; congruence)).
Defined.

(** ** No double counting across disjoint periods *)

Lemma div_superadditive (x y D : Z) :
  0 < D -> x / D + y / D <= (x + y) / D.
Proof.
  intros HD.
  pose proof (Z.div_mod x D ltac:(lia)).
  pose proof (Z.div_mod y D ltac:(lia)).
  pose proof (Z.mod_pos_bound x D HD).
  pose proof (Z.mod_pos_bound y D HD).
  apply Z.div_le_lower_bound; [exact HD | nia].
Qed.

(** Over disjoint ascending periods that start at or after [lo], the nights
    of a stay are at most the full days it has left after [lo]. *)
Lemma nights_disjoint_periods {num : Type} {N : JsNumber num}
  (r : Reservation num) :
  startDate r <= endDate r ->
  forall (ps : list (Date * Date)) (lo : Date),
    disjointAscending lo ps ->
    sumZ (map (fun p => overlapNights (fst p) (snd p) r) ps)
    <= Z.max 0 (endDate r - Z.max (startDate r) lo) / MS_PER_DAY.
Proof.
  intros Hr. induction ps as [| [a b] ps IH]; intros lo Hd.
  - cbn [map sumZ fold_right]. apply Z.div_pos; [lia | reflexivity].
  - destruct Hd as (Hlo & Hab & Hd). cbn [fst snd] in *.
    cbn [map sumZ fold_right fst snd].
    fold (sumZ (map (fun p => overlapNights (fst p) (snd p) r) ps)).
    specialize (IH b Hd). rewrite overlapNights_div.
    pose proof (div_superadditive
                  (Z.max 0 (Z.min (endDate r) b - Z.max (startDate r) a))
                  (Z.max 0 (endDate r - Z.max (startDate r) b))
                  MS_PER_DAY eq_refl) as Hsup.
    assert (Hmono :
              (Z.max 0 (Z.min (endDate r) b - Z.max (startDate r) a)
               + Z.max 0 (endDate r - Z.max (startDate r) b)) / MS_PER_DAY
              <= Z.max 0 (endDate r - Z.max (startDate r) lo) / MS_PER_DAY)
      by (apply Z.div_le_mono; [reflexivity | lia]).
    lia.
Qed.

(** X2. No double counting: over any periods in ascending order that do not
    overlap, the nights allocated to a reservation (whose end is not before
    its start) add up to at most the nights of its stay, whatever the times
    of day of its dates and of the period ends. *)
Theorem no_double_counting {num : Type} {N : JsNumber num}
  (r : Reservation num) (lo : Date) (ps : list (Date * Date)) :
  startDate r <= endDate r ->
  disjointAscending lo ps ->
  sumZ (map (fun p => nightsInPeriod r (fst p) (snd p)) ps)
  <= totalStayNights r.
Proof.
  intros Hr Hd.
  replace (map (fun p => nightsInPeriod r (fst p) (snd p)) ps)
    with (map (fun p => overlapNights (fst p) (snd p) r) ps)
    by (apply map_ext; intros p; symmetry; apply nightsInPeriod_overlap).
  pose proof (nights_disjoint_periods r Hr ps lo Hd) as H.
  unfold totalStayNights. rewrite differenceInDays_quot.
  rewrite Z.quot_div_nonneg by (unfold MS_PER_DAY; lia).
  assert (Hmono : Z.max 0 (endDate r - Z.max (startDate r) lo) / MS_PER_DAY
                  <= (endDate r - startDate r) / MS_PER_DAY)
    by (apply Z.div_le_mono; [reflexivity | lia]).
  lia.
Qed.

(** The multi-month stay over the periods the callers pass for May, June
    and July 2025: 11 + 29 + 9 of its 51 nights. *)
Lemma no_double_counting_witness :
  startDate (multiMonthStay (num := float) AsDecimal 2025 PriceNull)
  <= endDate (multiMonthStay (num := float) AsDecimal 2025 PriceNull) /\
  disjointAscending (startOfMonth 2025 5)
    [monthPeriod 2025 5; monthPeriod 2025 6; monthPeriod 2025 7] /\
  sumZ (map (fun p => nightsInPeriod (multiMonthStay (num := float) AsDecimal 2025 PriceNull)
                        (fst p) (snd p))
          [monthPeriod 2025 5; monthPeriod 2025 6; monthPeriod 2025 7])
  <= totalStayNights (multiMonthStay (num := float) AsDecimal 2025 PriceNull).
Proof.
  assert (Hr : startDate (multiMonthStay (num := float) AsDecimal 2025 PriceNull)
               <= endDate (multiMonthStay (num := float) AsDecimal 2025 PriceNull))
    by (vm_compute; congruence).
  assert (Hd : disjointAscending (startOfMonth 2025 5)
                 [monthPeriod 2025 5; monthPeriod 2025 6; monthPeriod 2025 7]).
  { cbn [disjointAscending].
    repeat match goal with |- _ /\ _ => split end;
      try exact I; vm_compute; congruence. }
  split; [exact Hr |]. split; [exact Hd |].
  exact (no_double_counting (multiMonthStay (num := float) AsDecimal 2025 PriceNull)
           (startOfMonth 2025 5)
           [monthPeriod 2025 5; monthPeriod 2025 6; monthPeriod 2025 7]
           Hr Hd).
Defined.

(** ** Lists of reservations *)

Lemma sumZ_app (xs ys : list Z) : sumZ (xs ++ ys) = sumZ xs + sumZ ys.
Proof.
  unfold sumZ. induction xs as [| x xs IH]; cbn [app fold_right]; lia.
Qed.

Lemma sumNum_exact_app (xs ys : list Qc) :
  sumNum (xs ++ ys) = (sumNum xs + sumNum ys)%Qc.
Proof.
  unfold sumNum. induction xs as [| x xs IH]; cbn [app fold_right].
  - rewrite ofZ_exact_zero. ring.
  - rewrite IH. cbn [nadd exact]. ring.
Qed.

Lemma fold_accumulate_exact (ms me : Date) (rs : list (Reservation Qc))
  (acc : Z * Qc) :
  snd (fold_left (accumulate ms me) rs acc)
  = (snd acc
     + sumNum (map (fun r => nightlyRate r * ofZ (overlapNights ms me r)) rs)
    )%Qc.
Proof.
  revert acc. induction rs as [| r rs IH]; intros acc;
    cbn [fold_left map sumNum fold_right].
  - rewrite ofZ_exact_zero. ring.
  - fold (sumNum (map (fun r => (nightlyRate r
                                 * ofZ (overlapNights ms me r))%Qc) rs)).
    rewrite IH, accumulate_exact. cbn [snd nadd exact]. ring.
Qed.

(** X3. Aggregation composes over concatenation: the total nights of two
    lists of reservations put together are the sum of their total nights,
    and, in exact arithmetic, the total revenue is the sum of their total
    revenues; so adding reservations never lowers the total nights. *)
Theorem totals_of_concatenation :
  (forall (num : Type) (N : JsNumber num) (rs rs' : list (Reservation num))
          (monthStart monthEnd : Date) (propertyCount : Z),
     totalNights
       (calculateMonthMetrics (rs ++ rs') monthStart monthEnd propertyCount)
     = totalNights
         (calculateMonthMetrics rs monthStart monthEnd propertyCount)
       + totalNights
           (calculateMonthMetrics rs' monthStart monthEnd propertyCount) /\
     totalNights (calculateMonthMetrics rs monthStart monthEnd propertyCount)
     <= totalNights
          (calculateMonthMetrics (rs ++ rs') monthStart monthEnd
             propertyCount)) /\
  (forall (rs rs' : list (Reservation Qc))
          (monthStart monthEnd : Date) (propertyCount : Z),
     totalRevenue
       (calculateMonthMetrics (rs ++ rs') monthStart monthEnd propertyCount)
     = (totalRevenue
          (calculateMonthMetrics rs monthStart monthEnd propertyCount)
        + totalRevenue
            (calculateMonthMetrics rs' monthStart monthEnd propertyCount)
       )%Qc).
Proof.
  split.
  - intros num N rs rs' ms me pc.
    pose proof (totalNights_nonneg rs' ms me pc) as Hn.
    rewrite !totalNights_sum in *. rewrite map_app, sumZ_app. lia.
  - intros rs rs' ms me pc. unfold calculateMonthMetrics.
    cbn [totalRevenue]. rewrite !fold_accumulate_exact.
    rewrite map_app, sumNum_exact_app. cbn [snd]. rewrite ofZ_exact_zero.
    ring.
Qed.

(** ** RevPAR, ADR and occupancy *)

(** X4. The two ratios over the available nights are defined together:
    occupancy is [null] exactly when RevPAR is.  In exact arithmetic, when
    ADR, occupancy and RevPAR are all defined, RevPAR is ADR times occupancy
    over 100. *)
Theorem revpar_is_adr_times_occupancy :
  (forall (num : Type) (N : JsNumber num) (rs : list (Reservation num))
          (monthStart monthEnd : Date) (propertyCount : Z),
     occupancy (calculateMonthMetrics rs monthStart monthEnd propertyCount)
     = None
     <-> revpar (calculateMonthMetrics rs monthStart monthEnd propertyCount)
         = None) /\
  (forall (rs : list (Reservation Qc)) (monthStart monthEnd : Date)
          (propertyCount : Z) (a o p : Qc),
     adr (calculateMonthMetrics rs monthStart monthEnd propertyCount)
     = Some a ->
     occupancy (calculateMonthMetrics rs monthStart monthEnd propertyCount)
     = Some o ->
     revpar (calculateMonthMetrics rs monthStart monthEnd propertyCount)
     = Some p ->
     p = (a * o / ofZ 100)%Qc).
Proof.
  split.
  - intros num N rs ms me pc.
    destruct (ratio_guards rs ms me pc) as [_ [Ho Hr]].
    rewrite Ho, Hr. reflexivity.
  - intros rs ms me pc a o p. unfold calculateMonthMetrics.
    cbn [adr occupancy revpar].
    set (totals := fold_left (accumulate ms me) rs (0, ofZ 0)).
    set (avail := pc * (differenceInDays me ms + 1)).
    destruct (Z.ltb_spec 0 (fst totals)) as [Hn |]; [| discriminate].
    destruct (Z.ltb_spec 0 avail) as [Ha |]; [| discriminate].
    intros [= <-] [= <-] [= <-].
    assert (H1 : (ofZ (fst totals) : Qc) <> 0%Qc)
      by (apply ofZ_exact_nonzero; lia).
    assert (H2 : (ofZ avail : Qc) <> 0%Qc)
      by (apply ofZ_exact_nonzero; lia).
    assert (H3 : (ofZ 100 : Qc) <> 0%Qc)
      by (apply ofZ_exact_nonzero; lia).
    cbn [nmul ndiv ofZ exact] in *.
    generalize dependent (Q2Qc (inject_Z (fst totals))).
    generalize dependent (Q2Qc (inject_Z avail)).
    generalize dependent (Q2Qc (inject_Z 100)).
    intros h H3 v H2 n H1. field. repeat split; assumption.
Qed.

(** The multi-month stay in June 2025 with one property. *)
Lemma revpar_is_adr_times_occupancy_witness :
  adr (calculateMonthMetrics [multiMonthStay (num := Qc) AsDecimal 2025 PriceNull]
         (startOfMonth 2025 6) (endOfMonth 2025 6) 1)
  = Some (Q2Qc (2000 # 51)) /\
  occupancy (calculateMonthMetrics [multiMonthStay (num := Qc) AsDecimal 2025 PriceNull]
               (startOfMonth 2025 6) (endOfMonth 2025 6) 1)
  = Some (Q2Qc (2900 # 30)) /\
  revpar (calculateMonthMetrics [multiMonthStay (num := Qc) AsDecimal 2025 PriceNull]
            (startOfMonth 2025 6) (endOfMonth 2025 6) 1)
  = Some (Q2Qc (58000 # 1530)) /\
  Q2Qc (58000 # 1530)
  = (Q2Qc (2000 # 51) * Q2Qc (2900 # 30) / ofZ 100)%Qc.
Proof.
  assert (Ha : adr (calculateMonthMetrics
                      [multiMonthStay (num := Qc) AsDecimal 2025 PriceNull]
                      (startOfMonth 2025 6) (endOfMonth 2025 6) 1)
               = Some (Q2Qc (2000 # 51)))
    by (vm_compute; f_equal; apply Qc_is_canon; reflexivity).
  assert (Ho : occupancy (calculateMonthMetrics
                            [multiMonthStay (num := Qc) AsDecimal 2025 PriceNull]
                            (startOfMonth 2025 6) (endOfMonth 2025 6) 1)
               = Some (Q2Qc (2900 # 30)))
    by (vm_compute; f_equal; apply Qc_is_canon; reflexivity).
  assert (Hp : revpar (calculateMonthMetrics
                         [multiMonthStay (num := Qc) AsDecimal 2025 PriceNull]
                         (startOfMonth 2025 6) (endOfMonth 2025 6) 1)
               = Some (Q2Qc (58000 # 1530)))
    by (vm_compute; f_equal; apply Qc_is_canon; reflexivity).
  split; [exact Ha |]. split; [exact Ho |]. split; [exact Hp |].
  exact (proj2 revpar_is_adr_times_occupancy
           [multiMonthStay AsDecimal 2025 PriceNull]
           (startOfMonth 2025 6) (endOfMonth 2025 6) 1 _ _ _ Ha Ho Hp).
Defined.

(** ** The periods the callers pass *)

Lemma div_mul_pred (k : Z) : (k * MS_PER_DAY - 1) / MS_PER_DAY = k - 1.
Proof.
  symmetry. apply Z.div_unique with (r := MS_PER_DAY - 1);
    unfold MS_PER_DAY; lia.
Qed.

Lemma endOfMonth_day (y m : Z) :
  1 <= m <= 12 ->
  endOfMonth y m
  = (daysFromCivil y m 1 + daysInMonth y m) * MS_PER_DAY - 1.
Proof.
  intros Hm. pose proof (month_length y m Hm) as Hl.
  unfold endOfMonth, midnight. destruct (m =? 12); f_equal; f_equal; lia.
Qed.

Lemma daysInMonth_pos (y m : Z) : 28 <= daysInMonth y m.
Proof.
  unfold daysInMonth.
  destruct (m =? 2); [destruct (isLeapYear y); lia |].
  destruct ((m =? 4) || (m =? 6) || (m =? 9) || (m =? 11)); lia.
Qed.

(** The nights of a stay on whole days over a period that starts at a
    midnight and ends one millisecond before another. *)
Lemma overlapNights_until_last_instant {num : Type} {N : JsNumber num}
  (r : Reservation num) (s e a b : Z) :
  startDate r = s * MS_PER_DAY -> endDate r = e * MS_PER_DAY -> a < b ->
  overlapNights (a * MS_PER_DAY) (b * MS_PER_DAY - 1) r
  = if (b <=? e) && (s <? b) then b - Z.max s a - 1
    else Z.max 0 (Z.min e b - Z.max s a).
Proof.
  intros Es Ee Hab.
  rewrite overlapNights_div, Es, Ee.
  destruct (Z.leb_spec b e) as [Hbe | Hbe];
    destruct (Z.ltb_spec s b) as [Hsb | Hsb]; cbn [andb].
  - replace (Z.max 0 (Z.min (e * MS_PER_DAY) (b * MS_PER_DAY - 1)
                      - Z.max (s * MS_PER_DAY) (a * MS_PER_DAY)))
      with ((b - Z.max s a) * MS_PER_DAY - 1)
      by (unfold MS_PER_DAY; lia).
    apply div_mul_pred.
  - replace (Z.max 0 (Z.min (e * MS_PER_DAY) (b * MS_PER_DAY - 1)
                      - Z.max (s * MS_PER_DAY) (a * MS_PER_DAY)))
      with 0 by (unfold MS_PER_DAY; lia).
    replace (Z.max 0 (Z.min e b - Z.max s a)) with 0 by lia.
    reflexivity.
  - replace (Z.max 0 (Z.min (e * MS_PER_DAY) (b * MS_PER_DAY - 1)
                      - Z.max (s * MS_PER_DAY) (a * MS_PER_DAY)))
      with (Z.max 0 (e - Z.max s a) * MS_PER_DAY)
      by (unfold MS_PER_DAY; lia).
    rewrite Z.div_mul by discriminate. f_equal. lia.
  - replace (Z.max 0 (Z.min (e * MS_PER_DAY) (b * MS_PER_DAY - 1)
                      - Z.max (s * MS_PER_DAY) (a * MS_PER_DAY)))
      with 0 by (unfold MS_PER_DAY; lia).
    replace (Z.max 0 (Z.min e b - Z.max s a)) with 0 by lia.
    reflexivity.
Qed.

(** X5. With the period the callers pass, from [startOfMonth] to
    [endOfMonth], a reservation on whole calendar days that overlaps the
    month and lasts beyond its end is allocated one night fewer than over
    the half-open month that ends at the next midnight; other reservations
    are allocated the same nights.  A reservation that covers the whole
    month is allocated the days of the month less one. *)
Theorem callers_month_drops_last_night {num : Type} {N : JsNumber num}
  (r : Reservation num) (y m : Z) :
  isMidnight (startDate r) -> isMidnight (endDate r) -> 1 <= m <= 12 ->
  nightsInPeriod r (startOfMonth y m) (endOfMonth y m)
  = nightsInPeriod r (startOfMonth y m) (endOfMonth y m + 1)
    - (if (endOfMonth y m <? endDate r) && (startDate r <=? endOfMonth y m)
       then 1 else 0) /\
  (startDate r <= startOfMonth y m -> endOfMonth y m < endDate r ->
   nightsInPeriod r (startOfMonth y m) (endOfMonth y m)
   = daysInMonth y m - 1).
Proof.
  intros Hs He Hm.
  pose proof (isMidnight_day _ Hs) as Es.
  pose proof (isMidnight_day _ He) as Ee.
  pose proof (daysInMonth_pos y m) as Hd.
  rewrite !nightsInPeriod_overlap, (endOfMonth_day y m Hm).
  unfold startOfMonth, midnight.
  set (s := startDate r / MS_PER_DAY) in *.
  set (e := endDate r / MS_PER_DAY) in *.
  set (a := daysFromCivil y m 1).
  set (b := a + daysInMonth y m).
  replace (b * MS_PER_DAY - 1 + 1) with (b * MS_PER_DAY) by lia.
  rewrite (overlapNights_midnights r s e a b Es Ee).
  rewrite (overlapNights_until_last_instant r s e a b Es Ee)
    by (subst b; lia).
  rewrite Es, Ee.
  assert (Hi1 : (b * MS_PER_DAY - 1 <? e * MS_PER_DAY) = (b <=? e)).
  { destruct (Z.ltb_spec (b * MS_PER_DAY - 1) (e * MS_PER_DAY)),
             (Z.leb_spec b e); unfold MS_PER_DAY in *; lia. }
  assert (Hi2 : (s * MS_PER_DAY <=? b * MS_PER_DAY - 1) = (s <? b)).
  { destruct (Z.leb_spec (s * MS_PER_DAY) (b * MS_PER_DAY - 1)),
             (Z.ltb_spec s b); unfold MS_PER_DAY in *; lia. }
  rewrite Hi1, Hi2. split.
  - destruct (Z.leb_spec b e), (Z.ltb_spec s b); cbn [andb]; lia.
  - intros Hlo Hhi.
    assert (s <= a) by (unfold MS_PER_DAY in *; lia).
    assert (b <= e) by (unfold MS_PER_DAY in *; lia).
    destruct (Z.leb_spec b e), (Z.ltb_spec s b); cbn [andb]; lia.
Qed.

(** The multi-month stay in June 2025: 29 nights of the 30 days. *)
Lemma callers_month_drops_last_night_witness :
  isMidnight (startDate (multiMonthStay (num := float) AsDecimal 2025 PriceNull)) /\
  isMidnight (endDate (multiMonthStay (num := float) AsDecimal 2025 PriceNull)) /\
  1 <= 6 <= 12 /\
  nightsInPeriod (multiMonthStay (num := float) AsDecimal 2025 PriceNull)
    (startOfMonth 2025 6) (endOfMonth 2025 6) = 30 - 1.
Proof.
  split; [vm_compute; reflexivity |]. split; [vm_compute; reflexivity |].
  split; [lia |].
  exact (proj2 (callers_month_drops_last_night
                  (multiMonthStay (num := float) AsDecimal 2025 PriceNull) 2025 6
                  ltac:(vm_compute; reflexivity)
                  ltac:(vm_compute; reflexivity) ltac:(lia))
           ltac:(vm_compute; congruence) ltac:(vm_compute; congruence)).
Defined.

(** * Beyond the claims: the callers *)

(** ** The date filter of the queries *)

Lemma fold_left_filter_neutral {A B : Type} (f : A -> B -> A)
  (keep : B -> bool) :
  (forall a x, keep x = false -> f a x = a) ->
  forall l a, fold_left f (filter keep l) a = fold_left f l a.
Proof.
  intros Hf. induction l as [| x l IH]; intros a; cbn [filter fold_left].
  - reflexivity.
  - destruct (keep x) eqn:Hk; cbn [fold_left].
    + apply IH.
    + rewrite (Hf a x Hk). apply IH.
Qed.

(** A reservation the date filter rejects has no overlap with the period. *)
Lemma rejected_no_overlap {num : Type} {N : JsNumber num}
  (ms me : Date) (r : Reservation num) :
  overlapsMonthWhere ms me r = false ->
  isAfter (overlapEnd me r) (overlapStart ms r) = false.
Proof.
  unfold overlapsMonthWhere, isAfter, overlapEnd, overlapStart, isBefore,
    isAfter.
  intros Hw. apply Z.ltb_ge.
  destruct (Z.leb_spec ms (startDate r)), (Z.leb_spec (startDate r) me),
           (Z.leb_spec ms (endDate r)), (Z.leb_spec (endDate r) me),
           (Z.ltb_spec (startDate r) ms), (Z.ltb_spec me (endDate r));
    cbn [andb orb] in Hw; try discriminate;
    destruct (Z.ltb_spec (endDate r) me), (Z.ltb_spec ms (startDate r));
    lia.
Qed.

(** X6. For a reservation that does not end before it starts and a period
    that does not end before it starts, the three-way date condition of the
    queries holds exactly when the closed ranges [startDate, endDate] and
    [monthStart, monthEnd] intersect. *)
Theorem where_is_closed_intersection {num : Type} {N : JsNumber num}
  (r : Reservation num) (monthStart monthEnd : Date) :
  startDate r <= endDate r -> monthStart <= monthEnd ->
  (overlapsMonthWhere monthStart monthEnd r = true
   <-> startDate r <= monthEnd /\ monthStart <= endDate r).
Proof.
  intros Hr Hp. unfold overlapsMonthWhere.
  destruct (Z.leb_spec monthStart (startDate r)),
           (Z.leb_spec (startDate r) monthEnd),
           (Z.leb_spec monthStart (endDate r)),
           (Z.leb_spec (endDate r) monthEnd),
           (Z.ltb_spec (startDate r) monthStart),
           (Z.ltb_spec monthEnd (endDate r));
    cbn [andb orb]; split; intros Hw; try lia; try reflexivity;
    try discriminate.
Qed.

(** The stay of Jan 15 - Feb 15, 2025 against the period of February that
    the callers pass, and against the period of March. *)
Lemma where_is_closed_intersection_witness :
  startDate (fullContainmentStay (num := float) AsDecimal 2025 PriceNull)
  <= endDate (fullContainmentStay (num := float) AsDecimal 2025 PriceNull) /\
  startOfMonth 2025 2 <= endOfMonth 2025 2 /\
  (overlapsMonthWhere (startOfMonth 2025 2) (endOfMonth 2025 2)
     (fullContainmentStay (num := float) AsDecimal 2025 PriceNull) = true
   <-> startDate (fullContainmentStay (num := float) AsDecimal 2025 PriceNull)
       <= endOfMonth 2025 2 /\
       startOfMonth 2025 2
       <= endDate (fullContainmentStay (num := float) AsDecimal 2025 PriceNull)).
Proof.
  split; [vm_compute; congruence |]. split; [vm_compute; congruence |].
  exact (where_is_closed_intersection
           (fullContainmentStay (num := float) AsDecimal 2025 PriceNull)
           (startOfMonth 2025 2) (endOfMonth 2025 2)
           ltac:(vm_compute; congruence) ltac:(vm_compute; congruence)).
Defined.

(** X7. The date condition of the queries never drops a reservation that
    counts: the metrics of the reservations that pass it are the metrics of
    the whole list, on the program's numbers as on any others. *)
Theorem where_keeps_the_metrics {num : Type} {N : JsNumber num}
  (rs : list (Reservation num)) (monthStart monthEnd : Date)
  (propertyCount : Z) :
  calculateMonthMetrics (filter (overlapsMonthWhere monthStart monthEnd) rs)
    monthStart monthEnd propertyCount
  = calculateMonthMetrics rs monthStart monthEnd propertyCount.
Proof.
  unfold calculateMonthMetrics.
  rewrite (fold_left_filter_neutral (accumulate monthStart monthEnd)
             (overlapsMonthWhere monthStart monthEnd)).
  - reflexivity.
  - intros acc r Hk. apply accumulate_no_overlap.
    now apply rejected_no_overlap.
Qed.

(** ** Variance and pickup *)

(** X8. In every metric of the monthly outlook the percentage variance is
    the absolute variance over the STLY value, times 100: it is [null]
    exactly when the absolute variance is [null] or the STLY value is
    [=== 0], and otherwise is computed from the absolute variance. *)
Theorem variance_percentage_of_absolute {num : Type} {N : JsNumber num}
  (current weekAgo stly : option num) :
  (variancePercentage (outlookMetric current weekAgo stly) = None
   <-> varianceAbsolute (outlookMetric current weekAgo stly) = None \/
       exists b, stly = Some b /\ isZero b = true) /\
  (forall a b,
     varianceAbsolute (outlookMetric current weekAgo stly) = Some a ->
     stly = Some b -> isZero b = false ->
     variancePercentage (outlookMetric current weekAgo stly)
     = Some ((a / b) * ofZ 100)%num).
Proof.
  unfold outlookMetric. cbn [variancePercentage varianceAbsolute].
  unfold calculatePercentageChange, difference.
  destruct current as [c |], stly as [b |]; split;
    try (split; [intros _; left; reflexivity | reflexivity]);
    try (intros a b' Ha; discriminate).
  - destruct (isZero b) eqn:Hz; split.
    + intros _. right. exists b. now split.
    + reflexivity.
    + discriminate.
    + intros [H | [b' [[= <-] Hb']]]; [discriminate | congruence].
  - intros a b' [= <-] [= <-] Hz. now rewrite Hz.
Qed.

(** 50 against an STLY value of 40: 10 absolute, 25 percent. *)
Lemma variance_percentage_of_absolute_witness :
  varianceAbsolute (outlookMetric (Some 50%float) None (Some 40%float))
  = Some 10%float /\
  isZero 40%float = false /\
  variancePercentage (outlookMetric (Some 50%float) None (Some 40%float))
  = Some 25%float.
Proof.
  split; [reflexivity |]. split; [reflexivity |].
  exact (proj2 (variance_percentage_of_absolute
                  (Some 50%float) None (Some 40%float))
           10%float 40%float eq_refl eq_refl eq_refl).
Defined.

Lemma difference_none {num : Type} {N : JsNumber num}
  (current baseline : option num) :
  difference current baseline = None
  <-> current = None \/ baseline = None.
Proof.
  unfold difference. destruct current, baseline; split;
    intros H; try discriminate; auto; destruct H; discriminate.
Qed.

(** Over a calendar month passed from [startOfMonth] to [endOfMonth] with a
    positive property count, occupancy and RevPAR are defined. *)
Lemma month_ratios_defined {num : Type} {N : JsNumber num}
  (rs : list (Reservation num)) (y m propertyCount : Z) :
  0 < propertyCount -> 1 <= m <= 12 ->
  occupancy (calculateMonthMetrics rs (startOfMonth y m) (endOfMonth y m)
               propertyCount) <> None /\
  revpar (calculateMonthMetrics rs (startOfMonth y m) (endOfMonth y m)
            propertyCount) <> None.
Proof.
  intros Hpc Hm.
  assert (Hav : 0 < totalAvailableNights
                      (calculateMonthMetrics rs (startOfMonth y m)
                         (endOfMonth y m) propertyCount)).
  { change (totalAvailableNights
              (calculateMonthMetrics rs (startOfMonth y m) (endOfMonth y m)
                 propertyCount))
      with (propertyCount
            * (differenceInDays (endOfMonth y m) (startOfMonth y m) + 1)).
    rewrite (differenceInDays_endOfMonth y m Hm).
    pose proof (daysInMonth_pos y m). nia. }
  destruct (ratio_guards rs (startOfMonth y m) (endOfMonth y m)
              propertyCount) as [_ [Ho Hr]].
  split; intros H; [apply Ho in H | apply Hr in H]; lia.
Qed.

(** X9. The two endpoints pass a positive property count and periods from
    [startOfMonth] to [endOfMonth] (for STLY, the same month a year
    earlier).  In [getWeeklyPacing] the occupancy and RevPAR pickups are then
    never [null], and the ADR pickup is [null] exactly when one of the two
    snapshots has no night in the month; in [getPortfolioMonthlyOutlook] the
    absolute variance and the pickup of occupancy and of RevPAR are never
    [null]. *)
Theorem pacing_and_outlook_nulls {num : Type} {N : JsNumber num}
  (currentReservations weekAgoReservations stlyReservations
     : list (Reservation num))
  (y m propertyCount : Z) :
  0 < propertyCount -> 1 <= m <= 12 ->
  (snd (fst (weeklyPacing currentReservations weekAgoReservations
               (startOfMonth y m) (endOfMonth y m) propertyCount)) <> None /\
   snd (weeklyPacing currentReservations weekAgoReservations
          (startOfMonth y m) (endOfMonth y m) propertyCount) <> None /\
   (fst (fst (weeklyPacing currentReservations weekAgoReservations
                (startOfMonth y m) (endOfMonth y m) propertyCount)) = None
    <-> totalNights
          (calculateMonthMetrics currentReservations
             (startOfMonth y m) (endOfMonth y m) propertyCount) = 0 \/
        totalNights
          (calculateMonthMetrics weekAgoReservations
             (startOfMonth y m) (endOfMonth y m) propertyCount) = 0)) /\
  (forall metric,
     metric
     = outlookOccupancy
         (monthOutlook currentReservations weekAgoReservations
            stlyReservations (startOfMonth y m) (endOfMonth y m)
            (startOfMonth (y - 1) m) (endOfMonth (y - 1) m) propertyCount)
     \/ metric
        = outlookRevpar
            (monthOutlook currentReservations weekAgoReservations
               stlyReservations (startOfMonth y m) (endOfMonth y m)
               (startOfMonth (y - 1) m) (endOfMonth (y - 1) m)
               propertyCount) ->
     varianceAbsolute metric <> None /\ wowPickup metric <> None).
Proof.
  intros Hpc Hm.
  pose proof (fun rs => month_ratios_defined rs y m propertyCount Hpc Hm)
    as Hcur.
  pose proof (fun rs => month_ratios_defined rs (y - 1) m propertyCount
                          Hpc Hm) as Hstly.
  split; [| intros metric [-> | ->]; unfold monthOutlook, outlookMetric;
            cbn [outlookOccupancy outlookRevpar varianceAbsolute wowPickup];
            rewrite !difference_none; split; intros [H | H];
            first [ now apply (proj1 (Hcur _)) in H
                  | now apply (proj2 (Hcur _)) in H
                  | now apply (proj1 (Hstly _)) in H
                  | now apply (proj2 (Hstly _)) in H ]].
  unfold weeklyPacing. cbn [fst snd]. repeat split.
  - rewrite difference_none. intros [H | H]; now apply (proj1 (Hcur _)) in H.
  - rewrite difference_none. intros [H | H]; now apply (proj2 (Hcur _)) in H.
  - rewrite difference_none. intros [H | H];
      apply (proj1 (ratio_guards _ _ _ _)) in H;
      [left | right];
      match goal with
      | |- totalNights (calculateMonthMetrics ?rs ?a ?b ?c) = 0 =>
          pose proof (totalNights_nonneg rs a b c)
      end; lia.
  - rewrite difference_none. intros [H | H]; [left | right];
      apply (proj1 (ratio_guards _ _ _ _)); lia.
Qed.

(** June 2025 with 316 properties, one stay now and none a week ago: the
    occupancy pickup is a number and the ADR pickup is [null]. *)
Lemma pacing_and_outlook_nulls_witness :
  0 < 316 /\ 1 <= 6 <= 12 /\
  snd (fst (weeklyPacing [multiMonthStay (num := float) AsDecimal 2025 PriceNull] []
              (startOfMonth 2025 6) (endOfMonth 2025 6) 316)) <> None /\
  fst (fst (weeklyPacing [multiMonthStay (num := float) AsDecimal 2025 PriceNull] []
              (startOfMonth 2025 6) (endOfMonth 2025 6) 316)) = None.
Proof.
  split; [lia |]. split; [lia |].
  destruct (pacing_and_outlook_nulls
              [multiMonthStay (num := float) AsDecimal 2025 PriceNull] [] [] 2025 6 316
              ltac:(lia) ltac:(lia)) as [[Ho [_ Ha]] _].
  split; [exact Ho |]. apply Ha. right. reflexivity.
Defined.

(** * Beyond the claims: the market breakdown of [getComprehensiveAnalytics] *)

Section MapFacts.

Context {V : Type}.

Implicit Types (m : KeyData.JsMap V) (k : String.string).

Lemma mapGet_mapSet k k' (v : V) m :
  KeyData.mapGet k (KeyData.mapSet k' v m)
  = if String.eqb k k' then Some v else KeyData.mapGet k m.
Proof.
  induction m as [| [k0 v0] m IH]; cbn [KeyData.mapSet KeyData.mapGet].
  - reflexivity.
  - destruct (String.eqb_spec k' k0) as [-> | Hne];
      cbn [KeyData.mapGet].
    + destruct (String.eqb k k0); reflexivity.
    + rewrite IH.
      destruct (String.eqb_spec k k0) as [-> | Hk]; [| reflexivity].
      destruct (String.eqb_spec k0 k'); [congruence | reflexivity].
Qed.

Lemma mapSet_keys k k' (v : V) m :
  In k (map fst (KeyData.mapSet k' v m)) <-> k = k' \/ In k (map fst m).
Proof.
  induction m as [| [k0 v0] m IH]; cbn [KeyData.mapSet map fst In].
  - intuition.
  - destruct (String.eqb_spec k' k0) as [-> | Hne]; cbn [map fst In].
    + intuition.
    + rewrite IH. intuition.
Qed.

Lemma mapSet_NoDup k (v : V) m :
  NoDup (map fst m) -> NoDup (map fst (KeyData.mapSet k v m)).
Proof.
  induction m as [| [k0 v0] m IH]; cbn [KeyData.mapSet map fst]; intros Hnd.
  - constructor; [intros [] | constructor].
  - inversion Hnd as [| ? ? Hnotin Hnd']; subst.
    destruct (String.eqb_spec k k0) as [-> | Hne]; cbn [map fst].
    + constructor; assumption.
    + constructor; [| now apply IH].
      rewrite mapSet_keys. intros [Heq | Hin]; [congruence | contradiction].
Qed.

Lemma mapGet_absent k m : ~ In k (map fst m) -> KeyData.mapGet k m = None.
Proof.
  induction m as [| [k0 v0] m IH]; cbn [KeyData.mapGet map fst In];
    intros Hn; [reflexivity |].
  destruct (String.eqb_spec k k0) as [-> | Hne]; [intuition |].
  apply IH. intuition.
Qed.

(** A loop that sets, for each element, a value that depends on its key. *)
Lemma mapGet_fold_set_by_key {A : Type} (key : A -> String.string)
  (g : String.string -> V) (rows : list A) m k :
  KeyData.mapGet k
    (fold_left (fun acc r => KeyData.mapSet (key r) (g (key r)) acc) rows m)
  = if existsb (fun r => String.eqb k (key r)) rows then Some (g k)
    else KeyData.mapGet k m.
Proof.
  revert m. induction rows as [| r rows IH]; intros m;
    cbn [fold_left existsb]; [reflexivity |].
  rewrite IH, mapGet_mapSet.
  destruct (String.eqb_spec k (key r)) as [-> | Hne]; cbn [orb];
    destruct (existsb _ rows); reflexivity.
Qed.

Lemma fold_set_NoDup {A : Type} (key : A -> String.string) (val : A -> V)
  (rows : list A) m :
  NoDup (map fst m) ->
  NoDup (map fst (fold_left (fun acc r => KeyData.mapSet (key r) (val r) acc)
                    rows m)).
Proof.
  revert m. induction rows as [| r rows IH]; intros m Hnd; cbn [fold_left].
  - exact Hnd.
  - apply IH. now apply mapSet_NoDup.
Qed.

End MapFacts.

(** A loop over the entries of a map without repeated keys that sets, for
    each entry, a function of its value. *)
Lemma mapGet_fold_entries {V W : Type} (f : V -> W)
  (m : KeyData.JsMap V) (acc : KeyData.JsMap W) (k : String.string) :
  NoDup (map fst m) ->
  KeyData.mapGet k
    (fold_left (fun a entry => KeyData.mapSet (fst entry) (f (snd entry)) a)
       m acc)
  = match KeyData.mapGet k m with
    | Some v => Some (f v)
    | None => KeyData.mapGet k acc
    end.
Proof.
  revert acc. induction m as [| [k0 v0] m IH]; intros acc Hnd;
    cbn [fold_left KeyData.mapGet fst snd]; [reflexivity |].
  inversion Hnd as [| ? ? Hnotin Hnd']; subst.
  rewrite (IH _ Hnd'), mapGet_mapSet.
  destruct (String.eqb_spec k k0) as [-> | Hne]; [| reflexivity].
  now rewrite (mapGet_absent k0 m Hnotin).
Qed.

Section MergeFacts.

Context {num : Type} {N : JsNumber num}.

Variable formatMonth : Date -> String.string.

Implicit Types (rows : list (KeyData.OutlookRow num))
  (items : list (KeyData.BreakdownItem num)).

Local Abbreviation keyOfRow := (fun r => formatMonth (KeyData.MonthYear r)).

Local Abbreviation keyIs k :=
  (fun item : KeyData.BreakdownItem num =>
     match KeyData.date item with
     | Some itemDate => String.eqb (formatMonth itemDate) k
     | None => false
     end).

Lemma collect_stops items :
  fold_left
    (fun state item =>
       match state with
       | Some m => KeyData.collectItem formatMonth m item
       | None => None
       end)
    items None
  = None.
Proof. induction items as [| item items IH]; [reflexivity | exact IH]. Qed.

(** The collection loop throws exactly when some date does not parse.
    When none does, the map keeps its keys without repetition and the object
    of a month holds what it held before followed by the items of that
    month, in the order of the response; a month without an object still
    has none. *)
Lemma collect_result items (m : KeyData.JsMap (KeyData.MonthData num)) :
  NoDup (map fst m) ->
  if KeyData.datesParse items
  then exists m',
      KeyData.collect formatMonth items m = Some m' /\
      NoDup (map fst m') /\
      forall k,
        KeyData.mapGet k m'
        = option_map
            (fun d => fold_left KeyData.pushItem (filter (keyIs k) items) d)
            (KeyData.mapGet k m)
  else KeyData.collect formatMonth items m = None.
Proof.
  unfold KeyData.collect, KeyData.datesParse. revert m.
  induction items as [| item items IH]; intros m Hnd;
    cbn [forallb fold_left filter].
  - exists m. split; [reflexivity |]. split; [exact Hnd |].
    intros k. destruct (KeyData.mapGet k m); reflexivity.
  - assert (Hstep : KeyData.collectItem formatMonth m item
                    = match KeyData.date item with
                      | None => None
                      | Some itemDate =>
                          match KeyData.mapGet (formatMonth itemDate) m with
                          | Some d =>
                              Some (KeyData.mapSet (formatMonth itemDate)
                                      (KeyData.pushItem d item) m)
                          | None => Some m
                          end
                      end) by reflexivity.
    rewrite Hstep. clear Hstep.
    destruct (KeyData.date item) as [itemDate |] eqn:Hdate; cbn [andb];
      [| apply collect_stops].
    destruct (KeyData.mapGet (formatMonth itemDate) m) as [d |] eqn:Hd.
    + specialize (IH (KeyData.mapSet (formatMonth itemDate)
                        (KeyData.pushItem d item) m)
                    (mapSet_NoDup _ _ _ Hnd)).
      destruct (forallb _ items); [| exact IH].
      destruct IH as (m' & Hm' & Hnd' & Hget).
      exists m'. split; [exact Hm' |]. split; [exact Hnd' |].
      intros k. rewrite Hget, mapGet_mapSet.
      destruct (String.eqb_spec (formatMonth itemDate) k) as [<- | Hne].
      * rewrite String.eqb_refl, Hd. reflexivity.
      * destruct (String.eqb_spec k (formatMonth itemDate));
          [congruence | reflexivity].
    + specialize (IH m Hnd).
      destruct (forallb _ items); [| exact IH].
      destruct IH as (m' & Hm' & Hnd' & Hget).
      exists m'. split; [exact Hm' |]. split; [exact Hnd' |].
      intros k. rewrite Hget.
      destruct (String.eqb_spec (formatMonth itemDate) k) as [<- | Hne];
        [| reflexivity].
      rewrite Hd. reflexivity.
Qed.

Lemma pushItem_fold items (d : KeyData.MonthData num) :
  fold_left KeyData.pushItem items d
  = {| KeyData.adrValues := KeyData.adrValues d ++ map KeyData.adr items;
       KeyData.occupancyValues :=
         KeyData.occupancyValues d ++ map KeyData.occupancy items;
       KeyData.revparValues :=
         KeyData.revparValues d ++ map KeyData.revPar items |}.
Proof.
  revert d. induction items as [| item items IH]; intros d;
    cbn [fold_left map].
  - rewrite !app_nil_r. now destruct d.
  - rewrite IH. cbn [KeyData.pushItem KeyData.adrValues
                       KeyData.occupancyValues KeyData.revparValues].
    now rewrite <- !app_assoc.
Qed.

Lemma row_key_present rows r :
  In r rows ->
  existsb (fun r' => String.eqb (keyOfRow r) (keyOfRow r')) rows = true.
Proof.
  intros Hin. apply existsb_exists. exists r. split; [exact Hin |].
  apply String.eqb_refl.
Qed.

(** What [resultsWithMarket] looks up for a row of the data. *)
Lemma filtered_lookup rows
  (collected : KeyData.JsMap (KeyData.MonthData num)) r :
  In r rows -> NoDup (map fst collected) ->
  KeyData.getOrNull (keyOfRow r)
    (KeyData.filteredMarketData formatMonth rows
       (KeyData.marketAverages collected))
  = match KeyData.mapGet (keyOfRow r) collected with
    | Some d => KeyData.averagesOf d
    | None => KeyData.nullMarketData
    end.
Proof.
  intros Hin Hnd.
  unfold KeyData.getOrNull at 1, KeyData.filteredMarketData.
  rewrite (mapGet_fold_set_by_key keyOfRow
             (fun k => KeyData.getOrNull k
                         (KeyData.marketAverages collected))).
  rewrite (row_key_present rows r Hin).
  unfold KeyData.getOrNull, KeyData.marketAverages.
  rewrite (mapGet_fold_entries KeyData.averagesOf collected [] _ Hnd).
  destruct (KeyData.mapGet (keyOfRow r) collected); reflexivity.
Qed.

Lemma initializeMap_lookup rows r :
  In r rows ->
  KeyData.mapGet (keyOfRow r) (KeyData.initializeMap formatMonth rows)
  = Some KeyData.emptyMonthData.
Proof.
  intros Hin. unfold KeyData.initializeMap.
  rewrite (mapGet_fold_set_by_key keyOfRow
             (fun _ => KeyData.emptyMonthData)).
  now rewrite (row_key_present rows r Hin).
Qed.

Lemma initializeMap_NoDup rows :
  NoDup (map fst (KeyData.initializeMap formatMonth rows)).
Proof.
  unfold KeyData.initializeMap.
  apply (fold_set_NoDup keyOfRow (fun _ => KeyData.emptyMonthData)).
  constructor.
Qed.

Lemma resultsWithMarket_some rows items :
  KeyData.resultsWithMarket formatMonth rows (Some items)
  = if KeyData.datesParse items
    then Some (map (fun r => KeyData.withMarketData r
                               (KeyData.monthAverages formatMonth items r))
                 rows)
    else None.
Proof.
  unfold KeyData.resultsWithMarket.
  pose proof (collect_result items _ (initializeMap_NoDup rows)) as Hc.
  destruct (KeyData.datesParse items); [| now rewrite Hc].
  destruct Hc as (m' & -> & Hnd & Hget).
  f_equal. apply map_ext_in. intros r Hin. f_equal.
  rewrite (filtered_lookup rows m' r Hin Hnd).
  rewrite Hget, (initializeMap_lookup rows r Hin).
  cbn [option_map]. rewrite pushItem_fold.
  unfold KeyData.averagesOf, KeyData.monthAverages, KeyData.itemsOfMonth.
  cbn [KeyData.adrValues KeyData.occupancyValues KeyData.revparValues
         KeyData.emptyMonthData app].
  reflexivity.
Qed.

Lemma resultsWithMarket_none rows :
  KeyData.resultsWithMarket formatMonth rows None
  = Some (KeyData.withoutMarket rows).
Proof.
  unfold KeyData.resultsWithMarket, KeyData.withoutMarket.
  f_equal. apply map_ext_in. intros r Hin. f_equal.
  rewrite (filtered_lookup rows _ r Hin (initializeMap_NoDup rows)).
  now rewrite (initializeMap_lookup rows r Hin).
Qed.

End MergeFacts.

Section MergeResults.

Context {num : Type} {N : JsNumber num}.

Variable formatMonth : Date -> String.string.

Lemma getComprehensiveAnalytics_response
  (rows : list (KeyData.OutlookRow num))
  (items : list (KeyData.BreakdownItem num)) :
  KeyData.getComprehensiveAnalytics formatMonth rows
    (KeyData.Response (Some items))
  = if KeyData.datesParse items
    then map (fun r => KeyData.withMarketData r
                         (KeyData.monthAverages formatMonth items r)) rows
    else KeyData.withoutMarket rows.
Proof.
  destruct rows as [| r rows];
    [destruct (KeyData.datesParse items); reflexivity |].
  cbn [KeyData.getComprehensiveAnalytics].
  rewrite resultsWithMarket_some.
  destruct (KeyData.datesParse items); reflexivity.
Qed.

Lemma getComprehensiveAnalytics_no_breakdown
  (rows : list (KeyData.OutlookRow num)) :
  KeyData.getComprehensiveAnalytics formatMonth rows (KeyData.Response None)
  = KeyData.withoutMarket rows.
Proof.
  destruct rows as [| r rows]; [reflexivity |].
  cbn [KeyData.getComprehensiveAnalytics].
  now rewrite resultsWithMarket_none.
Qed.

Lemma average_none (xs : list num) : KeyData.average xs = None <-> xs = [].
Proof.
  unfold KeyData.average. destruct xs as [| x xs]; cbn [length].
  - split; reflexivity.
  - destruct (Z.ltb_spec 0 (Z.of_nat (S (length xs)))); [| lia].
    split; discriminate.
Qed.

Lemma map_nil_iff {A B : Type} (f : A -> B) (l : list A) :
  map f l = [] <-> l = [].
Proof. destruct l; split; (reflexivity || discriminate). Qed.

End MergeResults.

(** X10. When the market request succeeds with a breakdown whose dates all
    parse, the three-pass merge through the maps returns, for each row in
    order, the row's own columns and, in each market column, the average of
    that column over the breakdown items whose month is the row's month,
    summed in the order of the response; items of months that no row has
    are ignored.  When the date of some item does not parse, [format]
    throws in the collection loop and every row is returned with [null]
    market columns.  So a market column is [null] exactly when some date of
    the breakdown does not parse or no item falls in the row's month. *)
Theorem market_columns_are_month_averages {num : Type} {N : JsNumber num}
  (formatMonth : Date -> String.string)
  (rows : list (KeyData.OutlookRow num))
  (items : list (KeyData.BreakdownItem num)) :
  KeyData.getComprehensiveAnalytics formatMonth rows
    (KeyData.Response (Some items))
  = (if KeyData.datesParse items
     then map (fun r => KeyData.withMarketData r
                          (KeyData.monthAverages formatMonth items r)) rows
     else KeyData.withoutMarket rows) /\
  Forall2
    (fun r result =>
       (KeyData.Out.Market_ADR_Current result = None
        <-> KeyData.datesParse items = false \/
            KeyData.itemsOfMonth formatMonth items r = []) /\
       (KeyData.Out.MarketOccupancyCurrent result = None
        <-> KeyData.datesParse items = false \/
            KeyData.itemsOfMonth formatMonth items r = []) /\
       (KeyData.Out.MarketRevPARCurrent result = None
        <-> KeyData.datesParse items = false \/
            KeyData.itemsOfMonth formatMonth items r = []))
    rows
    (KeyData.getComprehensiveAnalytics formatMonth rows
       (KeyData.Response (Some items))).
Proof.
  rewrite getComprehensiveAnalytics_response. split; [reflexivity |].
  destruct (KeyData.datesParse items).
  - induction rows as [| r rows IH]; cbn [map]; constructor; [| exact IH].
    cbn [KeyData.withMarketData KeyData.monthAverages
           KeyData.Out.Market_ADR_Current KeyData.Out.MarketOccupancyCurrent
           KeyData.Out.MarketRevPARCurrent KeyData.marketAdr
           KeyData.marketOccupancy KeyData.marketRevpar].
    rewrite !average_none, !map_nil_iff.
    repeat split; intros H; try (right; exact H);
      destruct H as [H | H]; (discriminate || exact H).
  - unfold KeyData.withoutMarket.
    induction rows as [| r rows IH]; cbn [map]; constructor; [| exact IH].
    cbn. repeat split; intros _; (reflexivity || (left; reflexivity)).
Qed.

(** X11. Whatever the market lookup comes to, the result has one row per
    row of the data, in the same order and with the row's own seven columns
    unchanged.  Without a market id, after a failed request and after a
    response without a breakdown, the three market columns of every row are
    [null]. *)
Theorem market_merge_keeps_rows {num : Type} {N : JsNumber num}
  (formatMonth : Date -> String.string)
  (rows : list (KeyData.OutlookRow num)) :
  (forall market,
     map KeyData.userColumns
       (KeyData.getComprehensiveAnalytics formatMonth rows market) = rows) /\
  (forall market,
     market = KeyData.NoMarketId \/ market = KeyData.RequestFailed \/
     market = KeyData.Response None ->
     Forall (fun result =>
               KeyData.marketColumns result = KeyData.nullMarketData)
       (KeyData.getComprehensiveAnalytics formatMonth rows market)).
Proof.
  assert (Huser : forall (md : KeyData.OutlookRow num -> KeyData.MarketData num),
            map KeyData.userColumns
              (map (fun r => KeyData.withMarketData r (md r)) rows) = rows).
  { intros md. rewrite map_map. rewrite <- (map_id rows) at 2.
    apply map_ext. intros [a b c d e f g]. reflexivity. }
  assert (Hnull : Forall (fun result =>
                            KeyData.marketColumns result
                            = KeyData.nullMarketData)
                    (KeyData.withoutMarket rows)).
  { unfold KeyData.withoutMarket. apply Forall_forall. intros x Hx.
    apply in_map_iff in Hx. destruct Hx as [r [<- _]]. reflexivity. }
  pose proof (getComprehensiveAnalytics_no_breakdown formatMonth rows)
    as Hnone.
  split.
  - intros [| | [items |]].
    + apply Huser.
    + apply Huser.
    + rewrite getComprehensiveAnalytics_response.
      destruct (KeyData.datesParse items); apply Huser.
    + rewrite Hnone. apply Huser.
  - intros market [-> | [-> | ->]]; [exact Hnull | exact Hnull |].
    rewrite Hnone. exact Hnull.
Qed.

(** * Beyond the claims: the task summary of the admin router *)

Lemma filter_length_le {A : Type} (f : A -> bool) (l : list A) :
  (length (filter f l) <= length l)%nat.
Proof.
  induction l as [| x l IH]; cbn [filter length]; [lia |].
  destruct (f x); cbn [length]; lia.
Qed.

Lemma filter_filter {A : Type} (f g : A -> bool) (l : list A) :
  filter g (filter f l) = filter (fun x => f x && g x) l.
Proof.
  induction l as [| x l IH]; cbn [filter]; [reflexivity |].
  destruct (f x); cbn [filter andb]; [destruct (g x) |]; now rewrite IH.
Qed.

(** X12. In every row of the task summary the counts are nested: the
    overdue tasks are among the open tasks and the open tasks among all the
    tasks.  A task counts as overdue only if it is open and has a due date
    before now: a closed task, or one without a due date, never does. *)
Theorem task_counts_nested (now : Date) (org : Admin.Organization) :
  0 <= Admin.overdueTaskCount (Admin.summarize now org)
    <= Admin.openTaskCount (Admin.summarize now org) /\
  Admin.openTaskCount (Admin.summarize now org)
    <= Admin.totalTasks (Admin.summarize now org) /\
  Admin.totalTasks (Admin.summarize now org)
  = Z.of_nat (length (Admin.tasks org)) /\
  Admin.overdueTaskCount (Admin.summarize now org)
  = Z.of_nat
      (length
         (filter
            (fun task =>
               Admin.isOpen task
               && match Admin.dueDate task with
                  | Some due => due <? now
                  | None => false
                  end)
            (Admin.tasks org))).
Proof.
  unfold Admin.summarize.
  cbn [Admin.overdueTaskCount Admin.openTaskCount Admin.totalTasks].
  pose proof (filter_length_le Admin.isOpen (Admin.tasks org)).
  pose proof (filter_length_le (Admin.isOverdue now)
                (filter Admin.isOpen (Admin.tasks org))).
  repeat split; try lia.
  rewrite filter_filter. reflexivity.
Qed.

Section LatestUpdate.

Implicit Types (ts : list Admin.Task).

Lemma latestUpdate_fold ts (seed : Date) :
  let latest :=
    fold_left
      (fun latest task =>
         if latest <? Admin.updatedAt task then Admin.updatedAt task
         else latest)
      ts seed in
  seed <= latest /\
  (forall task, In task ts -> Admin.updatedAt task <= latest) /\
  (latest = seed \/ exists task, In task ts /\ Admin.updatedAt task = latest).
Proof.
  revert seed. induction ts as [| t ts IH]; intros seed; cbn [fold_left].
  - cbn zeta. repeat split; [lia | intros task [] | now left].
  - cbn zeta.
    specialize (IH (if seed <? Admin.updatedAt t then Admin.updatedAt t
                    else seed)).
    cbn zeta in IH. destruct IH as (Hge & Hall & Hor).
    destruct (Z.ltb_spec seed (Admin.updatedAt t)) as [Hlt | Hle].
    + repeat split; [lia | |].
      * intros task [<- | Hin]; [lia | now apply Hall].
      * right. destruct Hor as [-> | [task [Hin Heq]]].
        -- exists t. split; [now left | reflexivity].
        -- exists task. split; [now right | exact Heq].
    + repeat split; [lia | |].
      * intros task [<- | Hin]; [lia | now apply Hall].
      * destruct Hor as [-> | [task [Hin Heq]]]; [now left |].
        right. exists task. split; [now right | exact Heq].
Qed.

End LatestUpdate.

(** X13. The last activity of an organization is [null] exactly when it has
    no task.  Otherwise it is a date that is not before the epoch nor before
    the [updatedAt] of any of its tasks, and it is the [updatedAt] of one of
    them or, when none is after the epoch, the epoch itself. *)
Theorem last_activity_is_latest (now : Date) (org : Admin.Organization) :
  (Admin.lastActivity (Admin.summarize now org) = None
   <-> Admin.tasks org = []) /\
  (forall latest,
     Admin.lastActivity (Admin.summarize now org) = Some latest ->
     0 <= latest /\
     (forall task, In task (Admin.tasks org) ->
                   Admin.updatedAt task <= latest) /\
     (latest = 0 \/
      exists task, In task (Admin.tasks org) /\
                   Admin.updatedAt task = latest)).
Proof.
  unfold Admin.summarize. cbn [Admin.lastActivity].
  destruct (Admin.tasks org) as [| t ts] eqn:Hts.
  - split; [split; reflexivity | intros latest H; discriminate].
  - cbn [length Nat.ltb Nat.leb]. split; [split; discriminate |].
    intros latest [= <-].
    exact (latestUpdate_fold (t :: ts) 0).
Qed.

(** The organization whose one task was updated 5 ms after the epoch. *)
Lemma last_activity_is_latest_witness :
  Admin.lastActivity (Admin.summarize 0 Admin.busyOrganization) = Some 5 /\
  0 <= 5.
Proof.
  split; [reflexivity |].
  exact (proj1 (proj2 (last_activity_is_latest 0 Admin.busyOrganization)
                  5 eq_refl)).
Defined.

(** ** The order of the summary *)

Lemma compareSummaries_precedes (a b : Admin.Summary) :
  Admin.compareSummaries a b <= 0 <-> Admin.precedes a b.
Proof.
  unfold Admin.compareSummaries, Admin.precedes, Admin.latestFirst.
  destruct (Z.eqb_spec (Admin.openTaskCount a) (Admin.openTaskCount b));
    cbn [negb]; [| lia].
  destruct (Z.eqb_spec (Admin.overdueTaskCount a)
              (Admin.overdueTaskCount b)); cbn [negb]; [| lia].
  destruct (Admin.lastActivity a), (Admin.lastActivity b);
    intuition lia.
Qed.

Lemma precedes_total (a b : Admin.Summary) :
  Admin.precedes a b \/ Admin.precedes b a.
Proof.
  unfold Admin.precedes, Admin.latestFirst.
  destruct (Admin.lastActivity a) as [ta |],
           (Admin.lastActivity b) as [tb |];
    destruct (Z.lt_total (Admin.openTaskCount a) (Admin.openTaskCount b))
      as [? | [? | ?]];
    destruct (Z.lt_total (Admin.overdueTaskCount a)
                (Admin.overdueTaskCount b)) as [? | [? | ?]];
    try (left; lia); try (right; lia);
    try (left; intuition lia); try (right; intuition lia).
  destruct (Z.le_ge_cases ta tb); [right | left]; intuition lia.
Qed.

Lemma precedes_trans (a b c : Admin.Summary) :
  Admin.precedes a b -> Admin.precedes b c -> Admin.precedes a c.
Proof.
  unfold Admin.precedes, Admin.latestFirst.
  destruct (Admin.lastActivity a), (Admin.lastActivity b),
           (Admin.lastActivity c); intuition lia.
Qed.

Section SortFacts.

Context {A : Type} (compare : A -> A -> Z) (R : A -> A -> Prop).

Hypothesis compare_R : forall x y, compare x y <= 0 <-> R x y.
Hypothesis R_total : forall x y, R x y \/ R y x.
Hypothesis R_trans : forall x y z, R x y -> R y z -> R x z.

Lemma insertBy_permutation (x : A) (l : list A) :
  Permutation (Admin.insertBy compare x l) (x :: l).
Proof.
  induction l as [| y l IH]; cbn [Admin.insertBy]; [reflexivity |].
  destruct (compare x y <=? 0); [reflexivity |].
  rewrite IH. apply perm_swap.
Qed.

Lemma sortBy_permutation (l : list A) :
  Permutation (Admin.sortBy compare l) l.
Proof.
  unfold Admin.sortBy. induction l as [| x l IH]; cbn [fold_right];
    [reflexivity |].
  rewrite insertBy_permutation. now constructor.
Qed.

Lemma insertBy_sorted (x : A) (l : list A) :
  Sorted.StronglySorted R l -> Sorted.StronglySorted R (Admin.insertBy compare x l).
Proof.
  induction l as [| y l IH]; intros Hs; cbn [Admin.insertBy].
  - constructor; constructor.
  - inversion Hs as [| ? ? Hs' Hall]; subst.
    destruct (Z.leb_spec (compare x y) 0) as [Hle | Hgt].
    + apply compare_R in Hle. constructor; [exact Hs |].
      constructor; [exact Hle |].
      eapply Forall_impl; [| exact Hall].
      intros z Hyz. eapply R_trans; eassumption.
    + assert (Hyx : R y x).
      { destruct (R_total x y) as [Hxy | Hyx]; [| exact Hyx].
        apply compare_R in Hxy. lia. }
      constructor; [now apply IH |].
      eapply Permutation_Forall;
        [apply Permutation_sym, insertBy_permutation |].
      constructor; assumption.
Qed.

Lemma sortBy_sorted (l : list A) : Sorted.StronglySorted R (Admin.sortBy compare l).
Proof.
  unfold Admin.sortBy. induction l as [| x l IH]; cbn [fold_right].
  - constructor.
  - now apply insertBy_sorted.
Qed.

End SortFacts.

(** X14. The comparator of the task summary is a total preorder: it is
    non-positive exactly when its first argument comes first by open tasks
    descending, then overdue tasks descending, then last activity
    descending with the organizations without activity last.  The summary
    returned is the rows of all the organizations, each once, in that
    order. *)
Theorem task_summary_is_sorted (now : Date)
  (organizations : list Admin.Organization) :
  (forall a b, Admin.compareSummaries a b <= 0 <-> Admin.precedes a b) /\
  (forall a b, Admin.precedes a b \/ Admin.precedes b a) /\
  (forall a b c,
     Admin.precedes a b -> Admin.precedes b c -> Admin.precedes a c) /\
  Permutation (Admin.getOrganizationTaskSummary now organizations)
    (map (Admin.summarize now) organizations) /\
  Sorted.StronglySorted Admin.precedes
    (Admin.getOrganizationTaskSummary now organizations).
Proof.
  split; [exact compareSummaries_precedes |].
  split; [exact precedes_total |].
  split; [exact precedes_trans |].
  unfold Admin.getOrganizationTaskSummary. split.
  - apply sortBy_permutation.
  - apply (sortBy_sorted Admin.compareSummaries Admin.precedes
             compareSummaries_precedes precedes_total precedes_trans).
Qed.

(** An organization with one open task against one without any task. *)
Lemma task_summary_is_sorted_witness :
  Admin.precedes (Admin.summarize 0 Admin.busyOrganization)
    (Admin.summarize 0 Admin.idleOrganization) /\
  Admin.compareSummaries (Admin.summarize 0 Admin.busyOrganization)
    (Admin.summarize 0 Admin.idleOrganization) <= 0.
Proof.
  assert (H : Admin.precedes (Admin.summarize 0 Admin.busyOrganization)
                (Admin.summarize 0 Admin.idleOrganization))
    by (left; vm_compute; reflexivity).
  split; [exact H |].
  exact (proj2 (proj1 (task_summary_is_sorted 0 []) _ _) H).
Defined.

(** ** Revenue across disjoint periods, in exact arithmetic *)

Section ExactOrder.

Local Open Scope Qc_scope.

Lemma ofZ_exact_le (a b : Z) : (a <= b)%Z -> (ofZ a : Qc) <= ofZ b.
Proof.
  intros H. unfold Qcle.
  change (Qred (inject_Z a) <= Qred (inject_Z b))%Q.
  rewrite !Qred_correct, <- Zle_Qle. exact H.
Qed.

Lemma ofZ_exact_pos (a : Z) : (0 < a)%Z -> 0 < (ofZ a : Qc).
Proof.
  intros H. unfold Qclt.
  change (Qred (inject_Z 0) < Qred (inject_Z a))%Q.
  rewrite !Qred_correct, <- Zlt_Qlt. exact H.
Qed.

Lemma nightlyRate_nonneg (r : Reservation Qc) :
  0 <= authoritativePrice r -> 0 <= nightlyRate r.
Proof.
  intros Hp. destruct (Z.ltb_spec 0 (totalStayNights r)) as [Hs | Hs].
  - apply (Qcmult_lt_0_le_reg_r 0 (nightlyRate r) (ofZ (totalStayNights r))).
    + now apply ofZ_exact_pos.
    + rewrite Qcmult_0_l, (nightlyRate_total r Hs). exact Hp.
  - unfold nightlyRate. apply Z.ltb_ge in Hs. rewrite Hs.
    rewrite ofZ_exact_zero. apply Qcle_refl.
Qed.

End ExactOrder.

(** X15. No double counting of revenue: in exact arithmetic, over any
    periods in ascending order that do not overlap, the revenues allocated
    to a reservation with a price that is not negative (and an end that is
    not before its start) add up to at least 0 and at most the price the
    engine prorates. *)
Theorem no_revenue_double_counting (r : Reservation Qc) (lo : Date)
  (ps : list (Date * Date)) :
  startDate r <= endDate r ->
  disjointAscending lo ps ->
  (0 <= authoritativePrice r)%Qc ->
  (0 <= sumNum (map (fun p => revenueInPeriod r (fst p) (snd p)) ps))%Qc /\
  (sumNum (map (fun p => revenueInPeriod r (fst p) (snd p)) ps)
   <= authoritativePrice r)%Qc.
Proof.
  intros Hr Hd Hp. rewrite sum_revenue_periods.
  pose proof (nightlyRate_nonneg r Hp) as Hrate.
  assert (Hn0 : 0 <= sumZ (map (fun p => overlapNights (fst p) (snd p) r) ps)).
  { apply sumZ_nonneg. apply Forall_forall. intros x Hx.
    apply in_map_iff in Hx. destruct Hx as [p [<- _]].
    apply overlapNights_nonneg. }
  assert (Hn1 : sumZ (map (fun p => overlapNights (fst p) (snd p) r) ps)
                <= totalStayNights r).
  { pose proof (nights_disjoint_periods r Hr ps lo Hd) as H.
    unfold totalStayNights. rewrite differenceInDays_quot.
    rewrite Z.quot_div_nonneg by (unfold MS_PER_DAY; lia).
    assert (Z.max 0 (endDate r - Z.max (startDate r) lo) / MS_PER_DAY
            <= (endDate r - startDate r) / MS_PER_DAY)
      by (apply Z.div_le_mono; [reflexivity | lia]).
    lia. }
  set (n := sumZ (map (fun p => overlapNights (fst p) (snd p) r) ps)) in *.
  split.
  - rewrite <- (Qcmult_0_l (nightlyRate r)), (Qcmult_comm (nightlyRate r)).
    apply Qcmult_le_compat_r; [| exact Hrate].
    rewrite <- ofZ_exact_zero. now apply ofZ_exact_le.
  - destruct (Z.ltb_spec 0 (totalStayNights r)) as [Hs | Hs].
    + rewrite <- (nightlyRate_total r Hs).
      rewrite (Qcmult_comm (nightlyRate r) (ofZ n)),
        (Qcmult_comm (nightlyRate r) (ofZ (totalStayNights r))).
      apply Qcmult_le_compat_r; [| exact Hrate].
      now apply ofZ_exact_le.
    + assert (Hz : n = 0) by lia. rewrite Hz, ofZ_exact_zero.
      rewrite Qcmult_0_r. exact Hp.
Qed.

(** The multi-month stay over the periods the callers pass for May, June
    and July 2025. *)
Lemma no_revenue_double_counting_witness :
  startDate (multiMonthStay (num := Qc) AsDecimal 2025 PriceNull)
  <= endDate (multiMonthStay (num := Qc) AsDecimal 2025 PriceNull) /\
  disjointAscending (startOfMonth 2025 5)
    [monthPeriod 2025 5; monthPeriod 2025 6; monthPeriod 2025 7] /\
  (0 <= authoritativePrice (multiMonthStay (num := Qc) AsDecimal 2025 PriceNull))%Qc /\
  (sumNum (map (fun p => revenueInPeriod (multiMonthStay (num := Qc) AsDecimal 2025 PriceNull)
                           (fst p) (snd p))
             [monthPeriod 2025 5; monthPeriod 2025 6; monthPeriod 2025 7])
   <= authoritativePrice (multiMonthStay (num := Qc) AsDecimal 2025 PriceNull))%Qc.
Proof.
  assert (Hr : startDate (multiMonthStay (num := Qc) AsDecimal 2025 PriceNull)
               <= endDate (multiMonthStay (num := Qc) AsDecimal 2025 PriceNull))
    by (vm_compute; congruence).
  assert (Hd : disjointAscending (startOfMonth 2025 5)
                 [monthPeriod 2025 5; monthPeriod 2025 6; monthPeriod 2025 7]).
  { cbn [disjointAscending].
    repeat match goal with |- _ /\ _ => split end;
      try exact I; vm_compute; congruence. }
  assert (Hp : (0 <= authoritativePrice
                       (multiMonthStay (num := Qc) AsDecimal 2025 PriceNull))%Qc)
    by (vm_compute; congruence).
  split; [exact Hr |]. split; [exact Hd |]. split; [exact Hp |].
  exact (proj2 (no_revenue_double_counting (multiMonthStay AsDecimal 2025 PriceNull)
                  (startOfMonth 2025 5)
                  [monthPeriod 2025 5; monthPeriod 2025 6; monthPeriod 2025 7]
                  Hr Hd Hp)).
Defined.

(** ** A month that is fully booked *)

(** X16. With the period the callers pass, a month in which every one of
    the properties is taken by a reservation on whole calendar days that
    covers the whole month counts, per property, the days of the month less
    one as nights against the days of the month as available nights: the
    total nights stay below the available nights. *)
Theorem fully_booked_month_below_capacity {num : Type} {N : JsNumber num}
  (rs : list (Reservation num)) (y m : Z) :
  1 <= m <= 12 ->
  Forall (fun r => isMidnight (startDate r) /\ isMidnight (endDate r) /\
                   startDate r <= startOfMonth y m /\
                   endOfMonth y m < endDate r) rs ->
  totalNights
    (calculateMonthMetrics rs (startOfMonth y m) (endOfMonth y m)
       (Z.of_nat (length rs)))
  = Z.of_nat (length rs) * (daysInMonth y m - 1) /\
  totalAvailableNights
    (calculateMonthMetrics rs (startOfMonth y m) (endOfMonth y m)
       (Z.of_nat (length rs)))
  = Z.of_nat (length rs) * daysInMonth y m.
Proof.
  intros Hm Hall. split.
  - rewrite totalNights_sum.
    induction Hall as [| r rs (Hs & He & Hlo & Hhi) _ IH].
    + reflexivity.
    + cbn [map sumZ fold_right length].
      fold (sumZ (map (overlapNights (startOfMonth y m) (endOfMonth y m))
                    rs)).
      rewrite IH, (endOfMonth_day y m Hm). unfold startOfMonth, midnight.
      pose proof (daysInMonth_pos y m) as Hd.
      pose proof (isMidnight_day _ Hs) as Es.
      pose proof (isMidnight_day _ He) as Ee.
      rewrite (endOfMonth_day y m Hm) in Hhi.
      unfold startOfMonth, midnight in Hlo.
      rewrite (overlapNights_until_last_instant r _ _
                 (daysFromCivil y m 1)
                 (daysFromCivil y m 1 + daysInMonth y m) Es Ee)
        by lia.
      set (s := startDate r / MS_PER_DAY) in *.
      set (e := endDate r / MS_PER_DAY) in *.
      assert (s <= daysFromCivil y m 1)
        by (unfold MS_PER_DAY in *; lia).
      assert (daysFromCivil y m 1 + daysInMonth y m <= e)
        by (unfold MS_PER_DAY in *; lia).
      destruct (Z.leb_spec (daysFromCivil y m 1 + daysInMonth y m) e),
               (Z.ltb_spec s (daysFromCivil y m 1 + daysInMonth y m));
        cbn [andb]; lia.
  - change (totalAvailableNights
              (calculateMonthMetrics rs (startOfMonth y m) (endOfMonth y m)
                 (Z.of_nat (length rs))))
      with (Z.of_nat (length rs)
            * (differenceInDays (endOfMonth y m) (startOfMonth y m) + 1)).
    now rewrite (differenceInDays_endOfMonth y m Hm).
Qed.

(** The multi-month stay covers June 2025: 29 nights against 30. *)
Lemma fully_booked_month_below_capacity_witness :
  1 <= 6 <= 12 /\
  totalNights
    (calculateMonthMetrics [multiMonthStay (num := float) AsDecimal 2025 PriceNull]
       (startOfMonth 2025 6) (endOfMonth 2025 6) 1) = 1 * (30 - 1) /\
  totalAvailableNights
    (calculateMonthMetrics [multiMonthStay (num := float) AsDecimal 2025 PriceNull]
       (startOfMonth 2025 6) (endOfMonth 2025 6) 1) = 1 * 30.
Proof.
  split; [lia |].
  apply (fully_booked_month_below_capacity
           [multiMonthStay (num := float) AsDecimal 2025 PriceNull] 2025 6 ltac:(lia)).
  apply Forall_cons; [| apply Forall_nil].
  repeat match goal with |- _ /\ _ => split end; vm_compute; congruence.
Defined.

(** One row of data and a response without a breakdown. *)
Lemma market_merge_keeps_rows_witness :
  KeyData.Response None = KeyData.Response (num := float) None /\
  Forall (fun result =>
            KeyData.marketColumns result = KeyData.nullMarketData)
    (KeyData.getComprehensiveAnalytics (fun _ => String.EmptyString)
       [KeyData.sampleRow] (KeyData.Response None)).
Proof.
  split; [reflexivity |].
  exact (proj2 (market_merge_keeps_rows (fun _ => String.EmptyString)
                  [KeyData.sampleRow])
           (KeyData.Response None) (or_intror (or_intror eq_refl))).
Defined.
